(** * ig-scraper: the resumable batch collection pipeline, verified

    A shallow embedding of the collection and normalisation code of the
    repository (apify_to_report.py, apify_scrape.py, ig_api_scraper.py,
    export_scraper.py, scrape_followers.py) together with the properties
    its specification states about it.

    Python values are embedded as a small JSON-like datatype, dictionaries
    as insertion-ordered association lists, Python sets as finite sets,
    exceptions and [sys.exit] as an explicit result type, and every remote
    collaborator (the Apify client, the HTTP session, the follower
    iterator) as an oracle passed to the function that calls it.

    Part I holds the embedding, one module per source file; Part II the
    properties. *)

From Stdlib Require Import ZArith Lia Ascii String.
From stdpp Require Import gmap strings list sorting pretty.

#[local] Set Warnings "-register-all".
#[local] Open Scope Z_scope.

(** * Part I: the embedding *)

(** ** Python values, control effects and built-ins *)

Module Py.

(** What [json.load] produces. JSON numbers are kept to the integers; a
    float plays no role in the code paths embedded below. A dictionary
    keeps its keys in insertion order, as Python's does. *)
Inductive value : Type :=
  | VNone
  | VBool (b : bool)
  | VInt (z : Z)
  | VStr (s : string)
  | VList (l : list value)
  | VDict (d : list (string * value)).

Abbreviation dict := (list (string * value)).

(** The exceptions the embedded code can meet, by class. [DateOutOfRange]
    stands for what [datetime.fromtimestamp] raises on a timestamp outside
    the years 1 to 9999 (ValueError, OverflowError or OSError, by
    magnitude and platform). *)
Inductive exn : Type :=
  | AttributeError
  | TypeError
  | KeyError
  | ValueError
  | ZeroDivisionError
  | FileNotFoundError
  | DateOutOfRange
  | RequestException
  | HTTPError (status : Z)
  | JSONDecodeError
  | OtherException.

(** A computation yields a value, raises, or leaves the process through
    [sys.exit(code)]. *)
Inductive result (A : Type) : Type :=
  | Ok (a : A)
  | Raise (e : exn)
  | Exit (code : Z).
Arguments Ok {A} a.
Arguments Raise {A} e.
Arguments Exit {A} code.

#[export] Instance result_ret : MRet result := fun _ a => Ok a.
#[export] Instance result_bind : MBind result := fun _ _ f m =>
  match m with
  | Ok a => f a
  | Raise e => Raise e
  | Exit c => Exit c
  end.

(** [bool(v)] *)
Definition truthy (v : value) : bool :=
  match v with
  | VNone => false
  | VBool b => b
  | VInt z => negb (z =? 0)
  | VStr s => negb (String.eqb s "")
  | VList l => match l with [] => false | _ :: _ => true end
  | VDict d => match d with [] => false | _ :: _ => true end
  end.

(** [a or b] *)
Definition py_or (a b : value) : value := if truthy a then a else b.

(** Dictionary access: [k in d], [d.get(k, dflt)], [d.get(k)], [d[k]] and
    [d[k] = v] (an existing key keeps its place). *)
Fixpoint dict_lookup (d : dict) (k : string) : option value :=
  match d with
  | [] => None
  | (k', v) :: d' => if decide (k = k') then Some v else dict_lookup d' k
  end.

Definition dict_get (d : dict) (k : string) (dflt : value) : value :=
  default dflt (dict_lookup d k).

Definition dict_get_none (d : dict) (k : string) : value := dict_get d k VNone.

Definition dict_item (d : dict) (k : string) : result value :=
  match dict_lookup d k with
  | Some v => Ok v
  | None => Raise KeyError
  end.

Fixpoint dict_set (d : dict) (k : string) (v : value) : dict :=
  match d with
  | [] => [(k, v)]
  | (k', v') :: d' =>
      if decide (k = k') then (k, v) :: d' else (k', v') :: dict_set d' k v
  end.

Definition dict_keys (d : dict) : list string := d.*1.
Definition dict_values (d : dict) : list value := d.*2.

(** [v.get(k, dflt)] on an arbitrary object: only a dictionary has [get]. *)
Definition obj_get (v : value) (k : string) (dflt : value) : result value :=
  match v with
  | VDict d => Ok (dict_get d k dflt)
  | _ => Raise AttributeError
  end.

(** [range(start, stop, step)], unrolled the way a [for] loop walks it. *)
Fixpoint range_up (fuel : nat) (i stop step : Z) : list Z :=
  match fuel with
  | O => []
  | S fuel' => if i <? stop then i :: range_up fuel' (i + step) stop step else []
  end.

Fixpoint range_down (fuel : nat) (i stop step : Z) : list Z :=
  match fuel with
  | O => []
  | S fuel' => if stop <? i then i :: range_down fuel' (i + step) stop step else []
  end.

(** An ascending range takes at most [stop - start] steps, a descending one
    at most [start - stop]. *)
Definition range_pos (start stop step : Z) : list Z :=
  range_up (Z.to_nat (stop - start)) start stop step.

Definition range_neg (start stop step : Z) : list Z :=
  range_down (Z.to_nat (start - stop)) start stop step.

Definition py_range (start stop step : Z) : result (list Z) :=
  if step =? 0 then Raise ValueError
  else if 0 <? step then Ok (range_pos start stop step)
  else Ok (range_neg start stop step).

(** [range(n)] *)
Definition py_range1 (n : Z) : list Z := range_pos 0 n 1.

(** [l[i:j]]: negative bounds count from the end, and both are clamped. *)
Definition clamp_index (len i : Z) : Z :=
  if i <? 0 then Z.max 0 (i + len) else Z.min i len.

Definition py_slice {A : Type} (l : list A) (i j : Z) : list A :=
  let n := Z.of_nat (length l) in
  let lo := clamp_index n i in
  let hi := clamp_index n j in
  take (Z.to_nat (hi - lo)) (drop (Z.to_nat lo) l).

(** [a // b] *)
Definition py_floordiv (a b : Z) : result Z :=
  if b =? 0 then Raise ZeroDivisionError else Ok (a / b).

(** [len(l)] *)
Definition len {A : Type} (l : list A) : Z := Z.of_nat (length l).

(** *** Strings

    A string is its sequence of bytes. Comparison is bytewise, which on
    UTF-8 text is the code point order Python's [<] uses. *)

(** The ASCII characters [str.strip()] removes. *)
Definition is_space (c : ascii) : bool :=
  let n := nat_of_ascii c in
  ((9 <=? n)%nat && (n <=? 13)%nat) || ((28 <=? n)%nat && (n <=? 32)%nat).

Fixpoint lstrip_with (drop_it : ascii → bool) (s : string) : string :=
  match s with
  | EmptyString => EmptyString
  | String c s' => if drop_it c then lstrip_with drop_it s' else s
  end.

Fixpoint rstrip_with (drop_it : ascii → bool) (s : string) : string :=
  match s with
  | EmptyString => EmptyString
  | String c s' =>
      match rstrip_with drop_it s' with
      | EmptyString => if drop_it c then EmptyString else String c EmptyString
      | r => String c r
      end
  end.

(** [s.strip()] *)
Definition str_strip (s : string) : string :=
  rstrip_with is_space (lstrip_with is_space s).

(** [s.rstrip(c)] for a one-character argument *)
Definition str_rstrip_char (c : ascii) (s : string) : string :=
  rstrip_with (Ascii.eqb c) s.

(** [s.split(c)] for a one-character separator: never an empty list. *)
Fixpoint str_split_char (c : ascii) (s : string) : list string :=
  match s with
  | EmptyString => [EmptyString]
  | String a s' =>
      if Ascii.eqb a c then EmptyString :: str_split_char c s'
      else match str_split_char c s' with
           | [] => [String a EmptyString]
           | h :: t => String a h :: t
           end
  end.

(** [l[-1]] on the outcome of a split *)
Definition last_segment (segments : list string) : string :=
  List.last segments EmptyString.

(** [sub in s] *)
Fixpoint str_contains (sub s : string) : bool :=
  String.prefix sub s ||
  match s with
  | EmptyString => false
  | String _ s' => str_contains sub s'
  end.

(** [s.replace(c, by)] for a one-character pattern *)
Fixpoint str_replace_char (c : ascii) (by_ : string) (s : string) : string :=
  match s with
  | EmptyString => EmptyString
  | String a s' =>
      if Ascii.eqb a c then by_ ++ str_replace_char c by_ s'
      else String a (str_replace_char c by_ s')
  end.

Definition newline : ascii := ascii_of_nat 10.

(** [v.replace("\n", " | ")] on an arbitrary object *)
Definition obj_replace_newlines (v : value) : result value :=
  match v with
  | VStr s => Ok (VStr (str_replace_char newline " | " s))
  | _ => Raise AttributeError
  end.

(** [str(v)]. The text Python prints for a list or a dictionary is left to
    the instance: no property below depends on it. *)
Class ContainerRepr := container_repr : value → string.

Definition py_str `{ContainerRepr} (v : value) : string :=
  match v with
  | VNone => "None"
  | VBool true => "True"
  | VBool false => "False"
  | VInt z => pretty z
  | VStr s => s
  | VList _ | VDict _ => container_repr v
  end.

(** [sorted(s)] on a set of strings *)
Definition str_le (a b : string) : Prop := String.leb a b = true.
#[export] Instance str_le_dec a b : Decision (str_le a b) :=
  decide (String.leb a b = true).

Definition py_sorted (s : gset string) : list string :=
  merge_sort str_le (elements s).

(** *** Dates

    [datetime.fromtimestamp(t, tz=timezone.utc).strftime("%Y-%m-%d")],
    after the reference implementation of the standard library: the
    proleptic Gregorian ordinal of the day (day 1 is 0001-01-01) is split
    into 400-, 100-, 4- and 1-year cycles. *)

Definition days_before_month (month : Z) : Z :=
  match month with
  | 1 => 0 | 2 => 31 | 3 => 59 | 4 => 90 | 5 => 120 | 6 => 151
  | 7 => 181 | 8 => 212 | 9 => 243 | 10 => 273 | 11 => 304 | 12 => 334
  | _ => 0
  end.

Definition days_in_month_table (month : Z) : Z :=
  match month with
  | 1 => 31 | 2 => 28 | 3 => 31 | 4 => 30 | 5 => 31 | 6 => 30
  | 7 => 31 | 8 => 31 | 9 => 30 | 10 => 31 | 11 => 30 | 12 => 31
  | _ => 0
  end.

Definition ord2ymd (ordinal : Z) : Z * Z * Z :=
  let n := ordinal - 1 in
  let n400 := n / 146097 in
  let n := n mod 146097 in
  let year := n400 * 400 + 1 in
  let n100 := n / 36524 in
  let n := n mod 36524 in
  let n4 := n / 1461 in
  let n := n mod 1461 in
  let n1 := n / 365 in
  let n := n mod 365 in
  let year := year + n100 * 100 + n4 * 4 + n1 in
  if (n1 =? 4) || (n100 =? 4) then (year - 1, 12, 31)
  else
    let leapyear := (n1 =? 3) && (negb (n4 =? 24) || (n100 =? 3)) in
    let month := Z.shiftr (n + 50) 5 in
    let preceding :=
      days_before_month month + (if (2 <? month) && leapyear then 1 else 0) in
    if n <? preceding then
      let month := month - 1 in
      let preceding :=
        preceding
        - (days_in_month_table month + (if (month =? 2) && leapyear then 1 else 0)) in
      (year, month, n - preceding + 1)
    else (year, month, n - preceding + 1).

Definition digit (n : Z) : ascii := ascii_of_nat (48 + Z.to_nat (n mod 10)).

Definition pad2 (n : Z) : string :=
  String (digit (n / 10)) (String (digit n) EmptyString).

(** Below the year 1000 platforms differ on the padding of [%Y]; the four
    digit form is taken. *)
Definition pad4 (n : Z) : string :=
  String (digit (n / 1000)) (String (digit (n / 100)) (pad2 n)).

Definition epoch_ordinal : Z := 719163.
Definition max_ordinal : Z := 3652059.

Definition utc_date (timestamp : Z) : result string :=
  let ordinal := timestamp / 86400 + epoch_ordinal in
  if (1 <=? ordinal) && (ordinal <=? max_ordinal) then
    let '(y, m, d) := ord2ymd ordinal in
    Ok (pad4 y ++ "-" ++ pad2 m ++ "-" ++ pad2 d)%string
  else Raise DateOutOfRange.

End Py.
Import Py.


Infix "|||" := py_or (at level 50, left associativity).

(** ** The Apify client, as both Apify scripts use it

    [client.actor(A).call(run_input=...)] followed by
    [client.dataset(run["defaultDatasetId"]).iterate_items()]: either the
    pair of calls hands back the run, with its terminal status, and the
    items of its dataset, or one of them raises. *)

Module Apify.

Inductive call_outcome : Type :=
  | CallReturned (status : string) (items : list dict)
  | CallRaised (e : exn).

(** The backend answers the [batch_num]-th submission of a list of
    identifiers. *)
Definition client := Z → list string → call_outcome.

End Apify.

(** ** apify_to_report.py *)

Module ApifyToReport.
Import Apify.

(** [load_already_scraped], on the content of the raw file ([None] when the
    file does not exist). The comprehension
    [{entry["username"] for entry in data if entry.get("username")}]
    is kept as a set of strings: a truthy username that is a number or a
    boolean also enters the Python set but compares unequal to every
    string, so it cannot change a membership test on a work unit; a list or
    a dictionary is unhashable. *)
Fixpoint scraped_of (data : list dict) : result (gset string) :=
  match data with
  | [] => Ok ∅
  | entry :: data' =>
      if truthy (dict_get_none entry "username") then
        match dict_get_none entry "username" with
        | VStr s => rest ← scraped_of data'; Ok ({[ s ]} ∪ rest)
        | VList _ | VDict _ => Raise TypeError
        | _ => scraped_of data'
        end
      else scraped_of data'
  end.

Definition load_already_scraped (raw_file : option (list dict)) : result (gset string) :=
  match raw_file with
  | None => Ok ∅
  | Some data => scraped_of data
  end.

(** [[u for u in all_usernames if u not in already_scraped]] *)
Definition remaining (all_usernames : list string) (already_scraped : gset string)
  : list string :=
  filter (fun u => u ∉ already_scraped) all_usernames.

(** [(len(remaining) + batch_size - 1) // batch_size] *)
Definition total_batches {A : Type} (remaining : list A) (batch_size : Z) : result Z :=
  py_floordiv (len remaining + batch_size - 1) batch_size.

(** The batches that
    [for i in range(0, len(remaining), batch_size): batch = remaining[i : i + batch_size]]
    walks through, in order. *)
Definition batches {A : Type} (remaining : list A) (batch_size : Z)
  : result (list (list A)) :=
  starts ← py_range 0 (len remaining) batch_size;
  Ok (map (fun i => py_slice remaining i (i + batch_size)) starts).

(** What [cmd_scrape] does that is visible from outside. *)
Inductive event : Type :=
  | EvCall (batch_num : Z) (batch : list string)
  | EvSave (content : list dict)
  | EvBatchFailed (batch_num : Z)
  | EvConvert (content : list dict)
  | EvAnalyze.

Record scrape_state : Type := ScrapeState {
  existing : list dict;
  raw_file : option (list dict);
  trace : list event;
}.

(** The body of the batch loop: the [try] block appends the items and
    rewrites the raw file, the [except Exception] handler leaves the loop.
    The run's status is not looked at. *)
Fixpoint batch_loop (c : client) (remaining : list string) (batch_size : Z)
    (starts : list Z) (st : scrape_state) : scrape_state :=
  match starts with
  | [] => st
  | i :: starts' =>
      let batch := py_slice remaining i (i + batch_size) in
      let batch_num := i / batch_size + 1 in
      match c batch_num batch with
      | CallReturned _ items =>
          let existing' := existing st ++ items in
          batch_loop c remaining batch_size starts'
            {| existing := existing';
               raw_file := Some existing';
               trace := trace st ++ [EvCall batch_num batch; EvSave existing'] |}
      | CallRaised _ =>
          {| existing := existing st;
             raw_file := raw_file st;
             trace := trace st ++ [EvCall batch_num batch; EvBatchFailed batch_num] |}
      end
  end.

(** [external_urls[0] if external_urls else ""] *)
Definition first_external_url (external_urls : value) : result value :=
  if truthy external_urls then
    match external_urls with
    | VList (x :: _) => Ok x
    | VStr (String c _) => Ok (VStr (String c EmptyString))
    | VDict _ => Raise KeyError
    | _ => Raise TypeError
    end
  else Ok (VStr "").

(** [handle_to_date.get(username, "")] *)
Definition follow_date_of (handle_to_date : dict) (username : value) : result value :=
  match username with
  | VStr s => Ok (dict_get handle_to_date s (VStr ""))
  | VList _ | VDict _ => Raise TypeError
  | _ => Ok (VStr "")
  end.

Definition fieldnames : list string :=
  ["handle"; "ig_user_id"; "full_name"; "follower_count"; "following_count";
   "is_verified"; "is_private"; "is_business"; "is_professional"; "category";
   "bio"; "external_url"; "post_count"; "profile_pic_url"; "follow_date"]%string.

(** One turn of the loop of [convert_apify_to_csv]: [None] when the entry
    is skipped, the row handed to the CSV writer otherwise. *)
Definition convert_entry (handle_to_date : dict) (entry : dict) : result (option dict) :=
  let username := dict_get entry "username" (VStr "") in
  if negb (truthy username) then Ok None
  else
    external_url ← first_external_url (dict_get_none entry "externalUrls" ||| VList []);
    let external_url :=
      match external_url with
      | VDict d => dict_get d "url" (VStr "")
      | _ => external_url
      end in
    bio ← obj_replace_newlines (dict_get_none entry "biography" ||| VStr "");
    follow_date ← follow_date_of handle_to_date username;
    Ok (Some
      [("handle", username);
       ("ig_user_id", dict_get entry "id" (VStr ""));
       ("full_name", dict_get entry "fullName" (VStr ""));
       ("follower_count", dict_get entry "followersCount" (VInt 0));
       ("following_count", dict_get entry "followsCount" (VInt 0));
       ("is_verified", dict_get entry "verified" (VBool false));
       ("is_private", dict_get entry "private" (VBool false));
       ("is_business", dict_get entry "isBusinessAccount" (VBool false));
       ("is_professional", dict_get entry "isProfessionalAccount" (VBool false));
       ("category", dict_get_none entry "businessCategoryName" ||| VStr "");
       ("bio", bio);
       ("external_url", external_url);
       ("post_count", dict_get entry "postsCount" (VInt 0));
       ("profile_pic_url",
          dict_get_none entry "profilePicUrlHD" ||| dict_get entry "profilePicUrl" (VStr ""));
       ("follow_date", follow_date)]%string).

Fixpoint convert_apify_to_csv (handle_to_date : dict) (apify_data : list dict)
  : result (list dict) :=
  match apify_data with
  | [] => Ok []
  | entry :: rest =>
      row ← convert_entry handle_to_date entry;
      rows ← convert_apify_to_csv handle_to_date rest;
      Ok (match row with Some r => r :: rows | None => rows end)
  end.

(** [cmd_scrape]: the state it leaves behind and the way it ends. After the
    batch loop, however that was left, the raw file is converted and the
    analysis runs; the analysis itself (pandas) is an [EvAnalyze] here. *)
Definition initial_state (file : option (list dict)) : scrape_state :=
  {| existing := []; raw_file := file; trace := [] |}.

Definition collect (c : client) (all_usernames : list string)
    (file : option (list dict)) (batch_size : Z) : scrape_state * result unit :=
  match load_already_scraped file with
  | Ok already_scraped =>
      let remaining := remaining all_usernames already_scraped in
      match remaining with
      | [] => (initial_state file, Ok tt)
      | _ :: _ =>
          let st := {| existing := default [] file; raw_file := file; trace := [] |} in
          match total_batches remaining batch_size with
          | Ok _ =>
              match py_range 0 (len remaining) batch_size with
              | Ok starts => (batch_loop c remaining batch_size starts st, Ok tt)
              | Raise e => (st, Raise e)
              | Exit code => (st, Exit code)
              end
          | Raise e => (st, Raise e)
          | Exit code => (st, Exit code)
          end
      end
  | Raise e => (initial_state file, Raise e)
  | Exit code => (initial_state file, Exit code)
  end.

Definition cmd_scrape (c : client) (handle_to_date : dict) (all_usernames : list string)
    (file : option (list dict)) (batch_size : Z) : scrape_state * result unit :=
  match collect c all_usernames file batch_size with
  | (st, Ok _) =>
      match raw_file st with
      | None => (st, Raise FileNotFoundError)
      | Some content =>
          let st' := {| existing := existing st; raw_file := raw_file st;
                        trace := trace st ++ [EvConvert content] |} in
          match convert_apify_to_csv handle_to_date content with
          | Ok _ =>
              ({| existing := existing st; raw_file := raw_file st;
                  trace := trace st ++ [EvConvert content; EvAnalyze] |}, Ok tt)
          | Raise e => (st', Raise e)
          | Exit code => (st', Exit code)
          end
      end
  | aborted => aborted
  end.

End ApifyToReport.

(** ** apify_scrape.py *)

Module ApifyScrape.
Import Apify.

(** [status in ("SUCCEEDED", "FAILED", "ABORTED", "TIMED-OUT")] *)
Definition is_terminal (status : value) : bool :=
  match status with
  | VStr s => bool_decide (s ∈ ["SUCCEEDED"; "FAILED"; "ABORTED"; "TIMED-OUT"]%string)
  | _ => false
  end.

(** [status != "SUCCEEDED"] *)
Definition not_succeeded (status : value) : bool :=
  match status with
  | VStr s => negb (String.eqb s "SUCCEEDED")
  | _ => true
  end.

(** [wait_for_run], fed with the successive answers of
    [client.run(run_id).get()]. The result carries the number of 15 second
    sleeps; [None] means the answers ran out while the run was still not
    terminal, the loop having no bound of its own. *)
Fixpoint wait_for_run (polls : list dict) : option (nat * result dict) :=
  match polls with
  | [] => None
  | run_info :: polls' =>
      match dict_item run_info "status" with
      | Ok status =>
          if is_terminal status then
            if not_succeeded status then Some (O, Exit 1) else Some (O, Ok run_info)
          else
            match wait_for_run polls' with
            | Some (sleeps, r) => Some (S sleeps, r)
            | None => None
            end
      | Raise e => Some (O, Raise e)
      | Exit code => Some (O, Exit code)
      end
  end.

(** The batches of the loop of [cmd_comments]: the same [range] and slice
    as in apify_to_report, with [batch_size = 50]. *)
Definition batch_size : Z := 50.

Definition comment_batches (post_urls : list string) : result (list (list string)) :=
  starts ← py_range 0 (len post_urls) batch_size;
  Ok (map (fun i => py_slice post_urls i (i + batch_size)) starts).

(** The loop of [cmd_comments] has no handler: an exception ends the
    command. The state is the accumulated comments and the successive
    contents written to the comments file. *)
Fixpoint comment_loop (c : client) (post_urls : list string) (starts : list Z)
    (all_comments : list dict) (saved : list (list dict))
  : list (list dict) * result (list dict) :=
  match starts with
  | [] => (saved, Ok all_comments)
  | i :: starts' =>
      let batch := py_slice post_urls i (i + batch_size) in
      let batch_num := i / batch_size + 1 in
      match c batch_num batch with
      | CallReturned _ items =>
          let all_comments' := all_comments ++ items in
          comment_loop c post_urls starts' all_comments' (saved ++ [all_comments'])
      | CallRaised e => (saved, Raise e)
      end
  end.

(** The follower normalisation of [cmd_analyze]: one dictionary literal per
    raw follower, its keys in the order they are written. *)
Definition canonical_fields : list string :=
  ["handle"; "ig_user_id"; "full_name"; "follower_count"; "following_count";
   "is_verified"; "is_private"; "bio"; "post_count"; "external_url";
   "profile_pic_url"]%string.

Definition normalize (f_data : value) : result dict :=
  match f_data with
  | VDict d =>
      let get := dict_get_none d in
      bio ← obj_replace_newlines (get "biography" ||| get "bio" ||| VStr "");
      Ok [("handle", get "username" ||| get "userName" ||| get "handle" ||| VStr "");
          ("ig_user_id", get "id" ||| get "pk" ||| get "userId" ||| get "iguid" ||| VStr "");
          ("full_name", get "fullName" ||| get "full_name" ||| VStr "");
          ("follower_count",
             get "followerCount" ||| get "followers" ||| get "follower_count" ||| VInt 0);
          ("following_count",
             get "followingCount" ||| get "following" ||| get "following_count" ||| VInt 0);
          ("is_verified", get "isVerified" ||| get "is_verified" ||| VBool false);
          ("is_private", get "isPrivate" ||| get "is_private" ||| VBool false);
          ("bio", bio);
          ("post_count", get "mediaCount" ||| get "postsCount" ||| get "post_count" ||| VInt 0);
          ("external_url", get "externalUrl" ||| get "external_url" ||| VStr "");
          ("profile_pic_url", get "profilePicUrl" ||| get "profile_pic_url" ||| VStr "")]%string
  | _ => Raise AttributeError
  end.

(** [followers.append(...)] for every element of the loaded file *)
Fixpoint normalize_all (raw_followers : list value) : result (list dict) :=
  match raw_followers with
  | [] => Ok []
  | f_data :: rest =>
      row ← normalize f_data;
      rows ← normalize_all rest;
      Ok (row :: rows)
  end.

End ApifyScrape.

(** ** The HTTP session of the web API scripts *)

Module Http.

(** What [session.get] does at one attempt: a response with its status code
    and its decoded body ([None] when the body is not JSON), or a
    [requests.exceptions.RequestException] (connection error, timeout). *)
Inductive response : Type :=
  | Response (status_code : Z) (body : option value)
  | NoResponse.

(** The session answers the request of each attempt. *)
Definition session := Z → response.

Inductive event : Type :=
  | Request (attempt : Z)
  | Sleep (seconds : Z).

(** [resp.raise_for_status()] raises an [HTTPError], itself a
    [RequestException], on a 4xx or 5xx status. *)
Definition raise_for_status (status_code : Z) : result unit :=
  if (400 <=? status_code) && (status_code <? 600)
  then Raise (HTTPError status_code) else Ok tt.

(** The retry loop shared, line for line, by the two copies of [api_get];
    they differ in the two delays. [resp.json()] on a body that is not JSON
    raises a decoding error, which [requests] derives from
    [RequestException]. *)
Section RetryLoop.
Variable rate_limit_wait : Z → Z.
Variable error_wait : Z → Z.
Variable s : session.
Variable max_retries : Z.

Fixpoint retry_loop (attempts : list Z) : list event * result value :=
  match attempts with
  | [] => ([], Ok (VDict []))
  | attempt :: rest =>
      let next := retry_loop rest in
      let retry_after (wait : Z) :=
        (Request attempt :: Sleep wait :: next.1, next.2) in
      let on_request_exception (e : exn) :=
        if attempt =? max_retries - 1 then ([Request attempt], Raise e)
        else retry_after (error_wait attempt) in
      match s attempt with
      | NoResponse => on_request_exception RequestException
      | Response status_code body =>
          if status_code =? 429 then retry_after (rate_limit_wait attempt)
          else if status_code =? 401 then ([Request attempt], Exit 1)
          else if status_code =? 404 then ([Request attempt], Ok (VDict []))
          else
            match raise_for_status status_code with
            | Ok _ =>
                match body with
                | Some v => ([Request attempt], Ok v)
                | None => on_request_exception JSONDecodeError
                end
            | Raise e => on_request_exception e
            | Exit code => ([Request attempt], Exit code)
            end
      end
  end.

End RetryLoop.

Definition sleeps (tr : list event) : list Z :=
  omap (fun e => match e with Sleep w => Some w | Request _ => None end) tr.

Definition requests (tr : list event) : list Z :=
  omap (fun e => match e with Request a => Some a | Sleep _ => None end) tr.

End Http.

(** ** ig_api_scraper.py *)

Module IgApiScraper.
Import Http.

Definition default_max_retries : Z := 3.

(** [wait = 60 * (2 ** attempt)] and [wait = 30 * (2 ** attempt)] *)
Definition rate_limit_wait (attempt : Z) : Z := 60 * 2 ^ attempt.
Definition error_wait (attempt : Z) : Z := 30 * 2 ^ attempt.

Definition api_get (s : session) (max_retries : Z) : list event * result value :=
  retry_loop rate_limit_wait error_wait s max_retries (py_range1 max_retries).

Section WithRepr.
Context `{ContainerRepr}.

(** The identifier a stored follower is filed under:
    [str(item["ig_user_id"])]. *)
Definition ident (item : value) : result string :=
  match item with
  | VDict d => id ← dict_item d "ig_user_id"; Ok (py_str id)
  | _ => Raise TypeError
  end.

(** [for item in json.load(f): collected[str(item["ig_user_id"])] = item] *)
Fixpoint load_progress (items : list value) (collected : dict) : result dict :=
  match items with
  | [] => Ok collected
  | item :: items' =>
      uid ← ident item;
      load_progress items' (dict_set collected uid item)
  end.

(** The loop [for u in users] over the elements of one page. *)
Fixpoint collect_users (users : list value) (collected : dict) : result dict :=
  match users with
  | [] => Ok collected
  | u :: users' =>
      match u with
      | VDict du =>
          let uid := py_str (dict_get_none du "pk" ||| dict_get du "pk_id" (VStr "")) in
          if String.eqb uid "" then collect_users users' collected
          else
            collect_users users'
              (dict_set collected uid
                 (VDict [("ig_user_id", VStr uid);
                         ("handle", dict_get du "username" (VStr ""));
                         ("full_name", dict_get du "full_name" (VStr ""));
                         ("is_private", dict_get du "is_private" (VBool false));
                         ("is_verified", dict_get du "is_verified" (VBool false));
                         ("profile_pic_url", dict_get du "profile_pic_url" (VStr ""))]%string))
      | _ => Raise AttributeError
      end
  end.

(** Iterating a truthy [users] that is not a list: a dictionary or a string
    yields strings, which have no [get]; anything else is not iterable. *)
Definition iterate_users (users : value) (collected : dict) : result dict :=
  match users with
  | VList l => collect_users l collected
  | VDict _ | VStr _ => Raise AttributeError
  | _ => Raise TypeError
  end.

(** The pagination loop of [cmd_followers], fed with what [api_get] gives
    for each page. It yields the successive contents written to the
    followers file and, unless the pages ran out with the loop still
    going ([None]), the dictionary at the end of the loop or the way the
    command was cut short. *)
Fixpoint page_loop (pages : list (result value)) (collected : dict)
    (writes : list (list value)) : list (list value) * option (result dict) :=
  match pages with
  | [] => (writes, None)
  | page :: pages' =>
      match data ← page; users ← obj_get data "users" (VList []);
            if truthy users
            then collected' ← iterate_users users collected;
                 next_id ← obj_get data "next_max_id" VNone;
                 Ok (Some (collected', next_id))
            else Ok None
      with
      | Ok None => (writes, Some (Ok collected))
      | Ok (Some (collected', next_id)) =>
          let writes' := writes ++ [dict_values collected'] in
          if truthy next_id then page_loop pages' collected' writes'
          else (writes', Some (Ok collected'))
      | Raise e => (writes, Some (Raise e))
      | Exit code => (writes, Some (Exit code))
      end
  end.

(** [cmd_followers] from "Load existing progress" on: the writes to the
    followers file and the returned list. *)
Definition cmd_followers (followers_file : option (list value))
    (pages : list (result value)) : list (list value) * option (result (list value)) :=
  match load_progress (default [] followers_file) [] with
  | Ok collected =>
      match page_loop pages collected [] with
      | (writes, Some (Ok collected')) =>
          (writes ++ [dict_values collected'], Some (Ok (dict_values collected')))
      | (writes, Some (Raise e)) => (writes, Some (Raise e))
      | (writes, Some (Exit code)) => (writes, Some (Exit code))
      | (writes, None) => (writes, None)
      end
  | Raise e => ([], Some (Raise e))
  | Exit code => ([], Some (Exit code))
  end.

(** The followers file after a run: the last content written, if any. *)
Definition file_after (followers_file : option (list value))
    (writes : list (list value)) : option (list value) :=
  match List.last (map Some writes) None with
  | Some w => Some w
  | None => followers_file
  end.

(** Successive invocations, each started on the file the previous one left. *)
Fixpoint restarts (followers_file : option (list value))
    (runs : list (list (result value))) : option (list value) :=
  match runs with
  | [] => followers_file
  | pages :: runs' =>
      restarts (file_after followers_file (cmd_followers followers_file pages).1) runs'
  end.

(** The resume filter of [cmd_enrich]:
    [[f for f in followers if str(f["ig_user_id"]) not in enriched_ids]] *)
Fixpoint remaining (followers : list value) (enriched_ids : gset string)
  : result (list value) :=
  match followers with
  | [] => Ok []
  | f :: followers' =>
      uid ← ident f;
      rest ← remaining followers' enriched_ids;
      Ok (if decide (uid ∈ enriched_ids) then rest else f :: rest)
  end.

End WithRepr.

End IgApiScraper.

(** ** export_scraper.py *)

Module ExportScraper.
Import Http.

Definition default_max_retries : Z := 8.

(** [wait = min(60 * (2 ** attempt), 900)] and
    [wait = min(30 * (2 ** attempt), 900)] *)
Definition rate_limit_wait (attempt : Z) : Z := Z.min (60 * 2 ^ attempt) 900.
Definition error_wait (attempt : Z) : Z := Z.min (30 * 2 ^ attempt) 900.

Definition api_get (s : session) (max_retries : Z) : list event * result value :=
  retry_loop rate_limit_wait error_wait s max_retries (py_range1 max_retries).

(** [sd.get("value", "").strip()] *)
Definition stripped_value (sd : dict) : result string :=
  match dict_get sd "value" (VStr "") with
  | VStr s => Ok (str_strip s)
  | _ => Raise AttributeError
  end.

(** The fallback on [href]:
    [if "instagram.com/" in href: username = href.rstrip("/").split("/")[-1]].
    The membership test also goes through on a list or a dictionary, which
    then have no [rstrip]. *)
Definition is_str (s : string) (v : value) : bool :=
  match v with
  | VStr s' => bool_decide (s = s')
  | _ => false
  end.

Definition username_from_href (href : value) : result string :=
  match href with
  | VStr h =>
      if str_contains "instagram.com/" h
      then Ok (last_segment (str_split_char "/" (str_rstrip_char "/" h)))
      else Ok EmptyString
  | VList l =>
      if existsb (is_str "instagram.com/") l then Raise AttributeError else Ok EmptyString
  | VDict d =>
      if bool_decide ("instagram.com/"%string ∈ dict_keys d)
      then Raise AttributeError else Ok EmptyString
  | _ => Raise TypeError
  end.

(** The date of a truthy [timestamp]; a boolean is the integer 0 or 1. *)
Definition follow_date_of (timestamp : value) : result string :=
  if truthy timestamp then
    match timestamp with
    | VInt z => utc_date z
    | VBool b => utc_date (if b then 1 else 0)
    | _ => Raise TypeError
    end
  else Ok EmptyString.

(** One turn of the loop [for sd in string_data]: the entry appended, or
    [None] after a [continue]. *)
Definition parse_sd (sd : value) : result (option dict) :=
  match sd with
  | VDict d =>
      username ← stripped_value d;
      username ← (if String.eqb username "" then username_from_href (dict_get d "href" (VStr ""))
                  else Ok username);
      if String.eqb username "" then Ok None
      else
        let timestamp := dict_get d "timestamp" (VInt 0) in
        follow_date ← follow_date_of timestamp;
        Ok (Some [("handle", VStr username);
                  ("follow_date", VStr follow_date);
                  ("timestamp", timestamp)]%string)
  | _ => Raise AttributeError
  end.

Fixpoint parse_string_data (string_data : list value) (entries : list dict)
  : result (list dict) :=
  match string_data with
  | [] => Ok entries
  | sd :: rest =>
      entry ← parse_sd sd;
      parse_string_data rest (match entry with Some e => entries ++ [e] | None => entries end)
  end.

(** [for sd in string_data] on a truthy value that need not be a list. *)
Definition iterate_string_data (string_data : value) (entries : list dict)
  : result (list dict) :=
  match string_data with
  | VList l => parse_string_data l entries
  | VDict _ | VStr _ => Raise AttributeError
  | _ => Raise TypeError
  end.

Fixpoint parse_items (items : list value) (entries : list dict) : result (list dict) :=
  match items with
  | [] => Ok entries
  | item :: rest =>
      string_data ← obj_get item "string_list_data" (VList []);
      entries' ← (if truthy string_data then iterate_string_data string_data entries
                  else Ok entries);
      parse_items rest entries'
  end.

(** The unwrapping of format B: the first value, in key order, that is a
    list. *)
Fixpoint first_list (d : dict) : option (list value) :=
  match d with
  | [] => None
  | (_, VList l) :: _ => Some l
  | _ :: d' => first_list d'
  end.

Definition parse_relationship_entries (data : value) : result (list dict) :=
  match data with
  | VDict d =>
      match first_list d with
      | Some items => parse_items items []
      | None => Ok []
      end
  | VList items => parse_items items []
  | VStr EmptyString => Ok []
  | VStr _ => Raise AttributeError
  | _ => Raise TypeError
  end.

End ExportScraper.

(** ** scrape_followers.py *)

Module ScrapeFollowers.

Definition max_retries : Z := 5.
Definition save_interval : Z := 100.

(** How the iteration over [profile.get_followers()] ends in one attempt:
    the iterator is exhausted, Instaloader raises one of the two exceptions
    the handler names, the user interrupts, or something else is raised. *)
Inductive iter_end : Type :=
  | Exhausted
  | RateLimited
  | Interrupted
  | Failed (e : exn).

(** One attempt: the usernames the iterator yields, then its end. *)
Definition feed : Type := list string * iter_end.

Record progress : Type := Progress {
  collected : gset string;
  count : Z;
  writes : list (list string);
}.

(** The body of [for follower in follower_iter]. Sleeping between
    followers changes nothing that is collected or written and is left
    out. *)
Definition visit (username : string) (p : progress) : progress :=
  if decide (username ∈ collected p) then p
  else
    let collected' := {[ username ]} ∪ collected p in
    let count' := count p + 1 in
    {| collected := collected';
       count := count';
       writes := if count' mod save_interval =? 0
                 then writes p ++ [py_sorted collected'] else writes p |}.

Definition consume (usernames : list string) (p : progress) : progress :=
  foldl (fun p username => visit username p) p usernames.

(** The retry loop [for attempt in range(max_retries)]. *)
Fixpoint attempt_loop (feeds : Z → feed) (attempts : list Z) (p : progress)
  : progress * result unit :=
  match attempts with
  | [] => (p, Ok tt)
  | attempt :: rest =>
      let '(usernames, ending) := feeds attempt in
      let p' := consume usernames
                  {| collected := collected p;
                     count := Z.of_nat (size (collected p));
                     writes := writes p |} in
      match ending with
      | Exhausted => (p', Ok tt)
      | RateLimited =>
          attempt_loop feeds rest
            {| collected := collected p'; count := count p';
               writes := writes p' ++ [py_sorted (collected p')] |}
      | Interrupted => (p', Ok tt)
      | Failed e => (p', Raise e)
      end
  end.

(** [cmd_followers] from "Load existing progress" on: every content written
    to the followers file, in order, and the way the command ends. *)
Definition cmd_followers (followers_file : option (list string)) (feeds : Z → feed)
  : list (list string) * result unit :=
  let start := {| collected := list_to_set (default [] followers_file);
                  count := 0; writes := [] |} in
  match attempt_loop feeds (py_range1 max_retries) start with
  | (p, Ok _) => (writes p ++ [py_sorted (collected p)], Ok tt)
  | (p, aborted) => (writes p, aborted)
  end.

End ScrapeFollowers.

(** ** The vocabulary of the properties

    Predicates and reference functions the statements of Part II are
    written with. *)

Module RetrySpec.

(** The attempts of a loop are consecutive integers. *)
Definition consecutive (a : Z) (attempts : list Z) : Prop :=
  ∀ (i : nat) x, attempts !! i = Some x → x = a + Z.of_nat i.

End RetrySpec.

Module NormalizeSpec.
(** The field mapping of the specification: each canonical field with the
    source names to consult, in order, and the value to fall back on. *)
Definition field_table : list (string * (list string * value)) :=
  [("handle", (["username"; "userName"; "handle"], VStr ""));
   ("ig_user_id", (["id"; "pk"; "userId"; "iguid"], VStr ""));
   ("full_name", (["fullName"; "full_name"], VStr ""));
   ("follower_count", (["followerCount"; "followers"; "follower_count"], VInt 0));
   ("following_count", (["followingCount"; "following"; "following_count"], VInt 0));
   ("is_verified", (["isVerified"; "is_verified"], VBool false));
   ("is_private", (["isPrivate"; "is_private"], VBool false));
   ("bio", (["biography"; "bio"], VStr ""));
   ("post_count", (["mediaCount"; "postsCount"; "post_count"], VInt 0));
   ("external_url", (["externalUrl"; "external_url"], VStr ""));
   ("profile_pic_url", (["profilePicUrl"; "profile_pic_url"], VStr ""))]%string.

(** The first source name, in order, under which the record holds a truthy
    value wins; the fallback is taken when there is none. *)
Fixpoint first_match (d : dict) (names : list string) (fallback : value) : value :=
  match names with
  | [] => fallback
  | name :: names' =>
      match dict_lookup d name with
      | Some v => if truthy v then v else first_match d names' fallback
      | None => first_match d names' fallback
      end
  end.

(** The text transform of the bio. *)
Definition bio_text (v : value) : value :=
  match v with
  | VStr s => VStr (str_replace_char newline " | " s)
  | _ => v
  end.
End NormalizeSpec.

Module StoreSpec.
Section WithRepr.
Context `{ContainerRepr}.

(** A followers file of ig_api_scraper holds no identifier twice: every
    item has an identifier and the identifiers are pairwise distinct. *)
Definition duplicate_free (items : list value) : Prop :=
  ∃ ids : list string,
    Forall2 (λ item id, IgApiScraper.ident item = Ok id) items ids ∧ NoDup ids.

(** The dictionary [collected] files every item under its own identifier. *)
Definition keyed (collected : dict) : Prop :=
  NoDup (dict_keys collected)
  ∧ Forall (λ entry : string * value, IgApiScraper.ident entry.2 = Ok entry.1) collected.

End WithRepr.
End StoreSpec.

Module ScrapeSpec.
Import Apify ApifyToReport.

(** The identifier a raw record is known by: its username, when it has a
    truthy one. *)
Definition record_id (entry : dict) : option value :=
  let username := dict_get_none entry "username" in
  if truthy username then Some username else None.

Definition ids_of (store : list dict) : list value := omap record_id store.

(** The submissions and the file contents recorded in a trace. *)
Definition calls (tr : list event) : list (Z * list string) :=
  omap (λ e, match e with EvCall n batch => Some (n, batch) | _ => None end) tr.

Definition saves (tr : list event) : list (list dict) :=
  omap (λ e, match e with EvSave content => Some content | _ => None end) tr.

(** A backend that answers a batch of distinct usernames with at most one
    record for each of them and with no other identified record. *)
Definition one_record_per_username (c : client) : Prop :=
  ∀ n batch status items,
    NoDup batch → c n batch = CallReturned status items →
    NoDup (ids_of items) ∧ ∀ v, v ∈ ids_of items → ∃ u, u ∈ batch ∧ v = VStr u.

(** The backend that returns, for every username asked for, one record
    bearing that username. *)
Definition profile_of (u : string) : dict :=
  [("username", VStr u); ("followersCount", VInt 0)]%string.

Definition echo_client : client :=
  λ _ batch, CallReturned "SUCCEEDED" (map profile_of batch).

(** What holds of the state of [cmd_scrape] when its loop is about to take
    the batch that starts at index [i]: no identifier is stored twice, the
    usernames stored were done before the run or come before [i] in the
    work list, and the file and every content saved hold no identifier
    twice. *)
Definition clean (remaining : list string) (already : gset string)
    (i : Z) (st : scrape_state) : Prop :=
  NoDup (ids_of (existing st))
  ∧ (∀ u, VStr u ∈ ids_of (existing st) → u ∈ already ∨ u ∈ take (Z.to_nat i) remaining)
  ∧ (∀ content, raw_file st = Some content → NoDup (ids_of content))
  ∧ (∀ content, content ∈ saves (trace st) → NoDup (ids_of content)).

End ScrapeSpec.

Module FailureSpec.
Import Apify ApifyToReport ScrapeSpec.

(** What the backend returned for a batch, nothing when it raised. *)
Definition items_of (c : client) (batch_num : Z) (batch : list string) : list dict :=
  match c batch_num batch with
  | CallReturned _ items => items
  | CallRaised _ => []
  end.

Definition returns (c : client) (batch_num : Z) (batch : list string) : Prop :=
  ∃ status items, c batch_num batch = CallReturned status items.

(** The scenario of the specification: 137 usernames, batches of 50. *)
Definition usernames137 : list string :=
  map (λ n : nat, ("u" +:+ pretty n)%string) (seq 1 137).

(** The second submission raises. *)
Definition raising_client : client :=
  λ batch_num batch,
    if batch_num =? 2 then CallRaised OtherException else echo_client batch_num batch.

(** The second run ends with status FAILED, ten records in its dataset. *)
Definition failed_run_client : client :=
  λ batch_num batch,
    if batch_num =? 2 then CallReturned "FAILED" (map profile_of (take 10 batch))
    else echo_client batch_num batch.

End FailureSpec.

Module RelationshipSpec.
Import ExportScraper.

(** The items of an export, in either format, and the entries of their
    "string_list_data", in order. *)
Definition items_of (data : value) : list value :=
  match data with
  | VList items => items
  | VDict d => default [] (first_list d)
  | _ => []
  end.

Definition string_data_of_item (item : value) : list value :=
  match item with
  | VDict d =>
      match dict_get d "string_list_data" (VList []) with
      | VList l => l
      | _ => []
      end
  | _ => []
  end.

Definition string_data_of (data : value) : list value :=
  items_of data ≫= string_data_of_item.

(** The two routes to a handle, and the entries that have neither. *)
Definition handle_by_value (d : dict) (handle : string) : Prop :=
  ∃ v, dict_get d "value" (VStr "") = VStr v
       ∧ handle = str_strip v ∧ handle ≠ ""%string.

Definition handle_by_href (d : dict) (handle : string) : Prop :=
  ∃ v href,
    dict_get d "value" (VStr "") = VStr v ∧ str_strip v = ""%string
    ∧ dict_get d "href" (VStr "") = VStr href
    ∧ str_contains "instagram.com/" href = true
    ∧ handle = last_segment (str_split_char "/" (str_rstrip_char "/" href))
    ∧ handle ≠ ""%string.

Definition no_handle (d : dict) : Prop :=
  ∃ v, dict_get d "value" (VStr "") = VStr v ∧ str_strip v = ""%string
       ∧ username_from_href (dict_get d "href" (VStr "")) = Ok ""%string.

(** The follow date that goes with a timestamp: the UTC day of a timestamp
    that is not zero, the empty string when it is zero or absent. *)
Definition date_of (timestamp : value) (follow_date : string) : Prop :=
  (truthy timestamp = false ∧ follow_date = ""%string)
  ∨ ∃ z, (timestamp = VInt z ∨ (timestamp = VBool true ∧ z = 1))
         ∧ z ≠ 0 ∧ utc_date z = Ok follow_date.

Definition entry_of (sd : value) (outcome : option dict) : Prop :=
  ∃ d, sd = VDict d
    ∧ match outcome with
      | Some entry =>
          ∃ handle follow_date,
            entry = [("handle", VStr handle); ("follow_date", VStr follow_date);
                     ("timestamp", dict_get d "timestamp" (VInt 0))]%string
            ∧ (handle_by_value d handle ∨ handle_by_href d handle)
            ∧ date_of (dict_get d "timestamp" (VInt 0)) follow_date
      | None => no_handle d
      end.

(** What every returned entry looks like. *)
Definition well_formed_entry (entry : dict) : Prop :=
  ∃ handle follow_date timestamp,
    entry = [("handle", VStr handle); ("follow_date", VStr follow_date);
             ("timestamp", timestamp)]%string
    ∧ handle ≠ ""%string
    ∧ date_of timestamp follow_date.

(** An export in format B: an entry with a value, one with an href only,
    one with neither. *)
Definition sample_export : value :=
  VDict [("relationships_followers",
     VList [VDict [("title", VStr "");
                   ("string_list_data",
                      VList [VDict [("href", VStr "https://www.instagram.com/alice");
                                    ("value", VStr "alice");
                                    ("timestamp", VInt 1700000000)];
                             VDict [("href", VStr "https://www.instagram.com/bob/");
                                    ("timestamp", VInt 0)];
                             VDict [("value", VStr "  ")]])]])]%string.

Definition sample_entries : list dict :=
  [[("handle", VStr "alice"); ("follow_date", VStr "2023-11-14");
    ("timestamp", VInt 1700000000)];
   [("handle", VStr "bob"); ("follow_date", VStr "");
    ("timestamp", VInt 0)]]%string.

End RelationshipSpec.

Module FollowersFileSpec.
Import ScrapeFollowers.

(** A content that [cmd_followers] may write when it started from the set
    [start]: the sorted list of a set that holds at least [start]. *)
Definition snapshot (start : gset string) (content : list string) : Prop :=
  ∃ s : gset string, start ⊆ s ∧ content = py_sorted s.

Definition sound (start : gset string) (p : progress) : Prop :=
  start ⊆ collected p ∧ Forall (snapshot start) (writes p).

End FollowersFileSpec.

Module SessionSpec.
Import Http.

(** The session that answers every request with 429. *)
Definition always_rate_limited : session := λ _, Response 429 None.

(** The session that answers the first request with 429 and the second
    with 401. *)
Definition refused_at_second : session :=
  λ attempt, if attempt =? 1 then Response 401 None else Response 429 None.

End SessionSpec.

(** * Part II: the properties *)

(** ** Python built-ins: ranges, slices, dates and strings *)

Module PyFacts.

Section Range.
Variables (stop step : Z).
Hypothesis step_pos : 0 < step.

Lemma range_up_lookup fuel i k :
  stop - i ≤ Z.of_nat fuel →
  range_up fuel i stop step !! k =
    if i + Z.of_nat k * step <? stop then Some (i + Z.of_nat k * step) else None.
Proof.
  revert i k. induction fuel as [|fuel IH]; intros i k Hfuel; simpl.
  - destruct (Z.ltb_spec (i + Z.of_nat k * step) stop); [nia | done].
  - destruct (Z.ltb_spec i stop) as [Hi|Hi].
    + destruct k as [|k]; simpl.
      * replace (i + Z.of_nat 0 * step) with i by lia.
        destruct (Z.ltb_spec i stop); [done | lia].
      * rewrite IH by lia. rewrite Nat2Z.inj_succ.
        replace (i + step + Z.of_nat k * step) with (i + Z.succ (Z.of_nat k) * step) by lia.
        done.
    + destruct (Z.ltb_spec (i + Z.of_nat k * step) stop); [nia | done].
Qed.

Lemma range_up_done fuel i : stop ≤ i → range_up fuel i stop step = [].
Proof.
  intros Hi. destruct fuel as [|fuel]; simpl; [done|].
  destruct (Z.ltb_spec i stop); [lia | done].
Qed.

Lemma range_up_length fuel i :
  stop - i ≤ Z.of_nat fuel → i ≤ stop →
  Z.of_nat (length (range_up fuel i stop step)) = (stop - i + step - 1) / step.
Proof.
  revert i. induction fuel as [|fuel IH]; intros i Hfuel Hi; simpl.
  - assert (stop = i) as -> by lia.
    replace (i - i + step - 1) with (step - 1) by lia.
    symmetry. apply Z.div_small. lia.
  - destruct (Z.ltb_spec i stop) as [Hlt|Hge].
    + cbn [length]. rewrite Nat2Z.inj_succ.
      destruct (Z.le_gt_cases (i + step) stop) as [Hin|Hout].
      * rewrite IH by lia.
        replace (stop - i + step - 1) with (stop - (i + step) + step - 1 + 1 * step) by lia.
        rewrite Z.div_add by lia. lia.
      * rewrite range_up_done by lia. simpl.
        apply Z.div_unique with (r := stop - i - 1); lia.
    + assert (stop = i) as -> by lia. simpl.
      replace (i - i + step - 1) with (step - 1) by lia.
      symmetry. apply Z.div_small. lia.
Qed.
End Range.

(** [range(n)] is [0, 1, ..., n - 1]. *)
Lemma py_range1_lookup n k :
  py_range1 n !! k = if Z.of_nat k <? n then Some (Z.of_nat k) else None.
Proof.
  unfold py_range1, range_pos. rewrite range_up_lookup by lia.
  replace (0 + Z.of_nat k * 1) with (Z.of_nat k) by lia. done.
Qed.

Lemma py_range1_length n : length (py_range1 n) = Z.to_nat n.
Proof.
  unfold py_range1, range_pos. destruct (Z.le_gt_cases 0 n).
  - apply Nat2Z.inj. rewrite range_up_length by lia.
    replace (n - 0 + 1 - 1) with n by lia. rewrite Z.div_1_r. lia.
  - replace (Z.to_nat (n - 0)) with O by lia. simpl. lia.
Qed.

Section Slices.
Context {A : Type}.
Implicit Types l : list A.

Lemma py_slice_window l i n :
  0 ≤ i → 0 ≤ n →
  py_slice l i (i + n) = take (Z.to_nat n) (drop (Z.to_nat i) l).
Proof.
  intros Hi Hn. unfold py_slice, clamp_index.
  destruct (Z.ltb_spec i 0); [lia|].
  destruct (Z.ltb_spec (i + n) 0); [lia|].
  destruct (Z.le_gt_cases (i + n) (Z.of_nat (length l))) as [Hfit|Hover].
  - rewrite !Z.min_l by lia. do 2 f_equal. lia.
  - destruct (Z.le_gt_cases i (Z.of_nat (length l))) as [Hin|Hout].
    + rewrite (Z.min_l i) by lia. rewrite Z.min_r by lia.
      rewrite !take_ge; [done | |]; rewrite length_drop; lia.
    + rewrite !Z.min_r by lia.
      rewrite !drop_ge by lia. by rewrite !take_nil.
Qed.

Lemma concat_windows l step fuel i :
  0 < step → 0 ≤ i → len l - i ≤ Z.of_nat fuel →
  concat (map (fun j => py_slice l j (j + step)) (range_up fuel i (len l) step))
  = drop (Z.to_nat i) l.
Proof.
  intros Hstep. revert i. induction fuel as [|fuel IH]; intros i Hi Hfuel; simpl.
  - unfold len in *. rewrite drop_ge by lia. done.
  - destruct (Z.ltb_spec i (len l)) as [Hlt|Hge].
    + simpl. rewrite IH by lia.
      rewrite py_slice_window by lia.
      replace (Z.to_nat (i + step)) with (Z.to_nat i + Z.to_nat step)%nat by lia.
      rewrite <- drop_drop. apply take_drop.
    + unfold len in *. rewrite drop_ge by lia. done.
Qed.
End Slices.

End PyFacts.

Module PyExamples.

Example utc_date_epoch : utc_date 0 = Ok "1970-01-01"%string.
Proof. reflexivity. Qed.
Example utc_date_2023 : utc_date 1700000000 = Ok "2023-11-14"%string.
Proof. reflexivity. Qed.
Example utc_date_leap : utc_date 951868799 = Ok "2000-02-29"%string.
Proof. reflexivity. Qed.
Example utc_date_y2100 : utc_date 4107542400 = Ok "2100-03-01"%string.
Proof. reflexivity. Qed.
Example utc_date_eoy : utc_date 1735689599 = Ok "2024-12-31"%string.
Proof. reflexivity. Qed.
Example utc_date_neg : utc_date (-1) = Ok "1969-12-31"%string.
Proof. reflexivity. Qed.
Example utc_date_max : utc_date 253402300799 = Ok "9999-12-31"%string.
Proof. reflexivity. Qed.
Example utc_date_over : utc_date 253402300800 = Raise DateOutOfRange.
Proof. reflexivity. Qed.
Example strip_ex : str_strip "  bob	 "%string = "bob"%string.
Proof. reflexivity. Qed.
Example seg_ex : last_segment (str_split_char "/" (str_rstrip_char "/" "https://www.instagram.com/bob//")) = "bob"%string.
Proof. reflexivity. Qed.
Example contains_ex : str_contains "instagram.com/" "https://www.instagram.com/bob" = true.
Proof. reflexivity. Qed.
Example sorted_ex : py_sorted {[ "b"; "a"; "B"; "ab" ]}%string = ["B"; "a"; "ab"; "b"]%string.
Proof. vm_compute. reflexivity. Qed.
Example repl_ex : str_replace_char newline " | " (String "a" (String newline "b")) = "a | b"%string.
Proof. reflexivity. Qed.

End PyExamples.

(** ** Batch partitioning *)

Module Batching.
Import ApifyToReport PyFacts.

Section Partition.
Context {A : Type}.
Variables (remaining : list A) (batch_size : Z).
Hypothesis batch_size_pos : 0 < batch_size.

#[local] Abbreviation starts := (range_pos 0 (len remaining) batch_size).

Lemma py_range_starts : py_range 0 (len remaining) batch_size = Ok starts.
Proof.
  unfold py_range.
  destruct (Z.eqb_spec batch_size 0); [lia|].
  destruct (Z.ltb_spec 0 batch_size); [done | lia].
Qed.

Lemma batches_ok :
  batches remaining batch_size =
    Ok (map (fun i => py_slice remaining i (i + batch_size)) starts).
Proof. unfold batches. by rewrite py_range_starts. Qed.

Lemma starts_lookup k :
  starts !! k =
    if Z.of_nat k * batch_size <? len remaining
    then Some (Z.of_nat k * batch_size) else None.
Proof.
  unfold range_pos. rewrite range_up_lookup by (unfold len; lia). done.
Qed.

Lemma starts_length :
  Z.of_nat (length starts) = (len remaining + batch_size - 1) / batch_size.
Proof.
  unfold range_pos. rewrite range_up_length by (unfold len; lia).
  by rewrite Z.sub_0_r.
Qed.

Lemma batches_concat :
  concat (map (fun i => py_slice remaining i (i + batch_size)) starts) = remaining.
Proof.
  unfold range_pos. rewrite concat_windows by (unfold len; lia). done.
Qed.

Lemma batches_lookup k b :
  map (fun i => py_slice remaining i (i + batch_size)) starts !! k = Some b →
  Z.of_nat k * batch_size < len remaining
  ∧ b = take (Z.to_nat batch_size) (drop (k * Z.to_nat batch_size) remaining).
Proof.
  rewrite list_lookup_fmap, starts_lookup.
  destruct (Z.ltb_spec (Z.of_nat k * batch_size) (len remaining)) as [Hk|Hk];
    [|done].
  simpl. intros [= <-]. split; [done|].
  rewrite py_slice_window by lia. do 2 f_equal. lia.
Qed.

(** The ceiling of [n / b], by its defining inequalities. *)
Lemma ceiling_bounds :
  let k := (len remaining + batch_size - 1) / batch_size in
  batch_size * (k - 1) < len remaining ≤ batch_size * k.
Proof.
  intros k. subst k.
  pose proof (Z.div_mod (len remaining + batch_size - 1) batch_size ltac:(lia)).
  pose proof (Z.mod_pos_bound (len remaining + batch_size - 1) batch_size ltac:(lia)).
  lia.
Qed.
End Partition.

Lemma comment_batches_eq post_urls :
  ApifyScrape.comment_batches post_urls = batches post_urls ApifyScrape.batch_size.
Proof. reflexivity. Qed.

Lemma batches_spec {A : Type} (remaining : list A) (batch_size : Z) :
  0 < batch_size →
  ∃ bs : list (list A),
    batches remaining batch_size = Ok bs
    ∧ total_batches remaining batch_size = Ok (len bs)
    ∧ batch_size * (len bs - 1) < len remaining ≤ batch_size * len bs
    ∧ concat bs = remaining
    ∧ ∀ (k : nat) b, bs !! k = Some b →
        b ≠ []
        ∧ b = take (Z.to_nat batch_size) (drop (k * Z.to_nat batch_size) remaining).
Proof.
  intros Hpos. eexists. split; [by apply batches_ok|].
  assert (len (map (λ i, py_slice remaining i (i + batch_size))
                 (range_pos 0 (len remaining) batch_size))
          = (len remaining + batch_size - 1) / batch_size) as Hlen.
  { unfold len at 1. rewrite length_map. by apply starts_length. }
  split; [|split; [|split]].
  - unfold total_batches, py_floordiv.
    destruct (Z.eqb_spec batch_size 0); [lia|]. by rewrite Hlen.
  - rewrite Hlen. by apply ceiling_bounds.
  - by apply batches_concat.
  - intros k b Hb. apply batches_lookup in Hb as [Hk ->]; [|done].
    split; [|done].
    intros Hnil. apply (f_equal length) in Hnil.
    rewrite length_take, length_drop in Hnil. simpl in Hnil.
    unfold len in Hk. nia.
Qed.

(** C1. For a positive batch size the batch loop of [cmd_scrape] walks
    through ceil(N / batch_size) batches, the number [total_batches]
    announces; each is the next [batch_size] work units of [remaining]
    (fewer in the last, never none), and the batches put end to end are
    [remaining] itself. The loop of [cmd_comments] does the same with its
    batch size of 50. *)
Theorem batch_partition_coverage (remaining : list string) (batch_size : Z) :
  0 < batch_size →
  (∃ bs : list (list string),
      batches remaining batch_size = Ok bs
      ∧ total_batches remaining batch_size = Ok (len bs)
      ∧ batch_size * (len bs - 1) < len remaining ≤ batch_size * len bs
      ∧ concat bs = remaining
      ∧ ∀ (k : nat) b, bs !! k = Some b →
          b ≠ []
          ∧ b = take (Z.to_nat batch_size) (drop (k * Z.to_nat batch_size) remaining))
  ∧ (∃ cs : list (list string),
      ApifyScrape.comment_batches remaining = Ok cs
      ∧ 50 * (len cs - 1) < len remaining ≤ 50 * len cs
      ∧ concat cs = remaining).
Proof.
  intros Hpos. split; [by apply batches_spec|].
  destruct (batches_spec remaining ApifyScrape.batch_size) as (cs & Hcs & _ & Hn & Hcat & _);
    [done|].
  exists cs. by rewrite comment_batches_eq.
Qed.

Lemma batch_partition_coverage_witness :
  0 < 2
  ∧ ∃ bs, batches ["a"; "b"; "c"]%string 2 = Ok bs
          ∧ concat bs = ["a"; "b"; "c"]%string.
Proof.
  split; [lia|].
  destruct (batch_partition_coverage ["a"; "b"; "c"]%string 2 ltac:(lia))
    as [(bs & Hbs & _ & _ & Hcat & _) _].
  exists bs. by split.
Defined.

Example batches_137_50 :
  (λ bs, map length bs) <$> (match batches (seq 1 137) 50 with Ok bs => Some bs | _ => None end)
  = Some [50; 50; 37]%nat.
Proof. vm_compute. reflexivity. Qed.

End Batching.

(** ** The resume filter *)

Module Resume.
Import ApifyToReport.

Section Occurrences.
Context {A : Type} `{EqDecision A}.
Implicit Types l k : list A.

(** How often [x] occurs in [l]. *)
Lemma occurrences_sublist l k x :
  l `sublist_of` k →
  (length (filter (x =.) l) ≤ length (filter (x =.) k))%nat.
Proof.
  induction 1 as [|y l k _ IH|y l k _ IH]; [done| |].
  - rewrite !filter_cons. case_decide; simpl; lia.
  - rewrite filter_cons. case_decide; simpl; lia.
Qed.

(** A sublist that keeps every occurrence of the elements satisfying [P]
    and nothing else is the filtered list. *)
Lemma filter_unique (P : A → Prop) `{∀ x, Decision (P x)} l r :
  r `sublist_of` l →
  (∀ x, length (filter (x =.) r)
        = if decide (P x) then length (filter (x =.) l) else O) →
  r = filter P l.
Proof.
  revert r. induction l as [|y l IH]; intros r Hsub Hocc.
  - by apply sublist_nil_r in Hsub.
  - rewrite filter_cons. apply sublist_cons_r in Hsub as [Hsub|(r' & -> & Hsub)].
    + case_decide as HP.
      * pose proof (Hocc y) as Hy. rewrite decide_True in Hy by done.
        rewrite filter_cons, decide_True in Hy by done. simpl in Hy.
        pose proof (occurrences_sublist _ _ y Hsub). lia.
      * apply IH; [done|]. intros x. rewrite Hocc.
        case_decide; [|done]. rewrite filter_cons, decide_False; [done|].
        by intros <-.
    + case_decide as HP.
      * f_equal. apply IH; [done|]. intros x. specialize (Hocc x).
        rewrite !filter_cons in Hocc. repeat case_decide; simpl in *; subst; try done; lia.
      * pose proof (Hocc y) as Hy. rewrite decide_False in Hy by done.
        rewrite filter_cons, decide_True in Hy by done. done.
Qed.

Lemma filter_occurrences (P : A → Prop) `{∀ x, Decision (P x)} l x :
  length (filter (x =.) (filter P l))
  = if decide (P x) then length (filter (x =.) l) else O.
Proof.
  induction l as [|y l IH]; [by case_decide|].
  rewrite !filter_cons.
  destruct (decide (P y)) as [Hy|Hy]; [rewrite filter_cons|];
    repeat case_decide; subst; simpl; rewrite ?IH;
    repeat case_decide; try done; try lia.
Qed.
End Occurrences.

(** The store of the scenario: one record for [u1], one for [u3]. *)
Lemma scraped_of_two :
  load_already_scraped
    (Some [[("username", VStr "u1"); ("followersCount", VInt 10)];
           [("username", VStr "u3")]]%string)
  = Ok ({[ "u1"; "u3" ]}%string : gset string).
Proof.
  simpl. by rewrite (right_id_L ∅ (∪)).
Qed.

(** C2. [remaining] keeps exactly the work units that are not done, in
    their order and as often as they occur: it is a subsequence of the work
    list, it holds a unit if and only if the unit is listed and not done,
    every unit that is not done occurs in it as often as in the work list,
    and it is the only list with these properties. With records for u1 and
    u3 in the store, [u1, u2, u3, u4] leaves [u2, u4]. *)
Theorem resume_filtering (W : list string) (D : gset string) :
  remaining W D `sublist_of` W
  ∧ (∀ u, u ∈ remaining W D ↔ u ∈ W ∧ u ∉ D)
  ∧ (∀ u, length (filter (u =.) (remaining W D))
          = if decide (u ∉ D) then length (filter (u =.) W) else O)
  ∧ (∀ R, R `sublist_of` W
          ∧ (∀ u, length (filter (u =.) R)
                  = if decide (u ∉ D) then length (filter (u =.) W) else O)
          ↔ R = remaining W D)
  ∧ (∃ done,
        load_already_scraped
          (Some [[("username", VStr "u1"); ("followersCount", VInt 10)];
                 [("username", VStr "u3")]]%string) = Ok done
        ∧ remaining ["u1"; "u2"; "u3"; "u4"]%string done = ["u2"; "u4"]%string).
Proof.
  unfold remaining. split; [apply sublist_filter|].
  split; [intros u; rewrite list_elem_of_filter; tauto|].
  split; [intros u; exact (filter_occurrences (λ u, u ∉ D) W u)|].
  split.
  - intros R. split.
    + intros [Hsub Hocc]. exact (filter_unique (λ u, u ∉ D) W R Hsub Hocc).
    + intros ->. split; [apply sublist_filter|]. intros u. exact (filter_occurrences (λ u, u ∉ D) W u).
  - eexists. split; [apply scraped_of_two|]. reflexivity.
Qed.

End Resume.

(** ** Normalisation *)

Module Normalization.
Import ApifyScrape NormalizeSpec.

Lemma truthy_none : truthy VNone = false.
Proof. done. Qed.

(** An [or] chain over [get] calls is a [first_match]. *)
Lemma or_get_first_match d name names fallback :
  first_match d (name :: names) fallback
  = (dict_get_none d name ||| first_match d names fallback).
Proof.
  unfold py_or, dict_get_none, dict_get. simpl.
  destruct (dict_lookup d name) as [v|]; simpl; [|done].
  by destruct (truthy v).
Qed.

Lemma py_or_assoc a b c : (a ||| b ||| c) = (a ||| (b ||| c)).
Proof. unfold py_or. destruct (truthy a) eqn:Ha; [by rewrite Ha|done]. Qed.

(** What [first_match] returns: the value under the first name that holds
    a truthy one, or the fallback when no name does. *)
Lemma first_match_spec d names fallback :
  (∃ before name after v,
      names = before ++ name :: after
      ∧ dict_lookup d name = Some v ∧ truthy v = true
      ∧ Forall (λ n, truthy (dict_get_none d n) = false) before
      ∧ first_match d names fallback = v)
  ∨ (Forall (λ n, truthy (dict_get_none d n) = false) names
     ∧ first_match d names fallback = fallback).
Proof.
  induction names as [|name names IH]; [right; by split|].
  simpl. destruct (dict_lookup d name) as [v|] eqn:Hv.
  - destruct (truthy v) eqn:Ht.
    + left. exists [], name, names, v. by repeat split.
    + destruct IH as [(before & n & after & w & -> & Hw & Htw & Hb & Hr)|[Hall Hr]].
      * left. exists (name :: before), n, after, w. repeat split; try done.
        constructor; [|done]. unfold dict_get_none, dict_get. by rewrite Hv.
      * right. split; [|done]. constructor; [|done].
        unfold dict_get_none, dict_get. by rewrite Hv.
  - destruct IH as [(before & n & after & w & -> & Hw & Htw & Hb & Hr)|[Hall Hr]].
    + left. exists (name :: before), n, after, w. repeat split; try done.
      constructor; [|done]. unfold dict_get_none, dict_get. by rewrite Hv.
    + right. split; [|done]. constructor; [|done].
      unfold dict_get_none, dict_get. by rewrite Hv.
Qed.

(** The row [normalize] builds, field by field. *)
Lemma normalize_fields (d : dict) row :
  normalize (VDict d) = Ok row →
  row = map (λ entry : string * (list string * value),
               let '(field, (names, fallback)) := entry in
               (field,
                if String.eqb field "bio" then bio_text (first_match d names fallback)
                else first_match d names fallback))
          field_table.
Proof.
  unfold normalize. cbn [field_table map String.eqb Ascii.eqb Bool.eqb].
  rewrite !or_get_first_match. cbn [first_match].
  rewrite !py_or_assoc.
  destruct (dict_get_none d "biography" ||| (dict_get_none d "bio" ||| VStr ""));
    cbn; try done.
  by intros [= <-].
Qed.

(** C3, as the code has it. For every raw record whose biography (the
    first truthy value under "biography" or "bio", the empty string when
    there is none) is a string, [normalize] returns a row that holds the
    eleven canonical fields, each once and in order; every field other than
    the bio is the value under the first of its source names that holds a
    truthy value, unchanged and of whatever type, or else its default (the
    empty string, 0 or False); the bio is the biography with every newline
    replaced by " | ". *)
Theorem normalize_total_with_defaults (d : dict) (bio : string) :
  first_match d ["biography"; "bio"]%string (VStr "") = VStr bio →
  ∃ row,
    normalize (VDict d) = Ok row
    ∧ dict_keys row = canonical_fields
    ∧ (∀ field names fallback,
         (field, (names, fallback)) ∈ field_table → field ≠ "bio"%string →
         dict_lookup row field = Some (first_match d names fallback))
    ∧ dict_lookup row "bio" = Some (VStr (str_replace_char newline " | " bio)).
Proof.
  intros Hbio.
  assert (∃ row, normalize (VDict d) = Ok row) as [row Hrow].
  { rewrite !or_get_first_match in Hbio. cbn [first_match] in Hbio.
    unfold normalize. cbv zeta. rewrite !py_or_assoc, Hbio. cbn. eauto. }
  exists row. split; [done|].
  apply normalize_fields in Hrow. subst row.
  split; [done|]. split.
  - intros field names fallback Hin Hne. unfold field_table in Hin.
    repeat (apply elem_of_cons in Hin as [[= -> -> ->]|Hin]; [done|]).
    by apply elem_of_nil in Hin.
  - cbn [field_table map dict_lookup String.eqb Ascii.eqb Bool.eqb].
    repeat (case_decide; [done|]). rewrite decide_True by done.
    by rewrite Hbio.
Qed.

(** The record of the specification's scenario. *)
Lemma normalize_total_with_defaults_witness :
  ∃ row,
    normalize (VDict [("userName", VStr "bob"); ("followers", VInt 12)]%string) = Ok row
    ∧ dict_lookup row "handle" = Some (VStr "bob")
    ∧ dict_lookup row "follower_count" = Some (VInt 12)
    ∧ dict_lookup row "following_count" = Some (VInt 0)
    ∧ dict_lookup row "is_verified" = Some (VBool false).
Proof.
  destruct (normalize_total_with_defaults
              [("userName", VStr "bob"); ("followers", VInt 12)]%string ""
              eq_refl) as (row & Hrow & _ & Hfields & _).
  exists row. split; [done|].
  split; [|split; [|split]].
  - by rewrite (Hfields "handle"%string _ _ ltac:(repeat constructor) ltac:(done)).
  - by rewrite (Hfields "follower_count"%string _ _ ltac:(repeat constructor) ltac:(done)).
  - by rewrite (Hfields "following_count"%string _ _ ltac:(repeat constructor) ltac:(done)).
  - by rewrite (Hfields "is_verified"%string _ _ ltac:(repeat constructor) ltac:(done)).
Defined.

(** A record with no field at all gets every default. *)
Example normalize_empty :
  normalize (VDict []) =
    Ok [("handle", VStr ""); ("ig_user_id", VStr ""); ("full_name", VStr "");
        ("follower_count", VInt 0); ("following_count", VInt 0);
        ("is_verified", VBool false); ("is_private", VBool false);
        ("bio", VStr ""); ("post_count", VInt 0); ("external_url", VStr "");
        ("profile_pic_url", VStr "")]%string.
Proof. reflexivity. Qed.

(** A boolean that arrives as the text "false" stays that text, which is
    truthy: no boolean is made of it. *)
Lemma boolean_text_not_coerced :
  (∃ row, normalize (VDict [("isVerified", VStr "false")]%string) = Ok row
          ∧ dict_lookup row "is_verified" = Some (VStr "false"))
  ∧ ¬ (∃ row b, normalize (VDict [("isVerified", VStr "false")]%string) = Ok row
                ∧ dict_lookup row "is_verified" = Some (VBool b)).
Proof.
  split.
  - eexists. split; reflexivity.
  - intros (row & b & Hrow & Hb). cbv in Hrow. injection Hrow as <-. by cbv in Hb.
Qed.

(** Nor is the number 1 turned into [True]. *)
Example boolean_number_not_coerced :
  ∃ row, normalize (VDict [("isVerified", VInt 1)]%string) = Ok row
         ∧ dict_lookup row "is_verified" = Some (VInt 1).
Proof. eexists. split; reflexivity. Qed.

(** A biography that is not text makes [normalize] raise: a number has no
    [replace]. *)
Example normalize_raises :
  normalize (VDict [("username", VStr "bob"); ("biography", VInt 5)]%string)
  = Raise AttributeError.
Proof. reflexivity. Qed.

(** The conversion of apify_to_report writes a row only for an entry with a
    truthy username, and then one with the fifteen columns of the CSV. *)
Lemma convert_entry_skips handle_to_date entry :
  truthy (dict_get entry "username" (VStr "")) = false →
  ApifyToReport.convert_entry handle_to_date entry = Ok None.
Proof. intros Hu. unfold ApifyToReport.convert_entry. by rewrite Hu. Qed.

Lemma convert_entry_fields handle_to_date entry row :
  ApifyToReport.convert_entry handle_to_date entry = Ok (Some row) →
  dict_keys row = ApifyToReport.fieldnames.
Proof.
  unfold ApifyToReport.convert_entry.
  destruct (truthy (dict_get entry "username" (VStr ""))); [|done]. simpl.
  destruct (ApifyToReport.first_external_url _); [|done..]. simpl.
  destruct (obj_replace_newlines _); [|done..]. simpl.
  destruct (ApifyToReport.follow_date_of _ _); [|done..]. simpl.
  by intros [= <-].
Qed.

End Normalization.

(** ** The result stores *)

Module FollowersStore.
Import IgApiScraper StoreSpec.

Lemma dict_set_keys d k v :
  dict_keys (dict_set d k v)
  = if decide (k ∈ dict_keys d) then dict_keys d else dict_keys d ++ [k].
Proof.
  unfold dict_keys. induction d as [|[k' v'] d IH].
  - destruct (decide (k ∈ [].*1)) as [Hin|_]; [by apply elem_of_nil in Hin|done].
  - cbn [dict_set]. destruct (decide (k = k')) as [->|Hne].
    + destruct (decide (k' ∈ ((k', v') :: d).*1)) as [_|Hout]; [done|].
      destruct Hout. left.
    + rewrite fmap_cons, IH. cbn [fst].
      destruct (decide (k ∈ d.*1)) as [Hin|Hout];
        destruct (decide (k ∈ ((k', v') :: d).*1)) as [Hin'|Hout']; try done.
      * destruct Hout'. by right.
      * rewrite fmap_cons in Hin'. apply elem_of_cons in Hin' as [?|?]; done.
Qed.

Lemma dict_set_entries d k v entry :
  entry ∈ dict_set d k v → entry = (k, v) ∨ entry ∈ d.
Proof.
  induction d as [|[k' v'] d IH]; simpl.
  - intros ->%list_elem_of_singleton. by left.
  - destruct (decide (k = k')) as [->|Hne].
    + intros [->|Hin]%elem_of_cons; [by left|right; by right].
    + intros [->|Hin]%elem_of_cons; [right; left|].
      destruct (IH Hin) as [->|?]; [by left|right; by right].
Qed.

Section WithRepr.
Context `{ContainerRepr}.

Lemma keyed_nil : keyed [].
Proof. split; [constructor|constructor]. Qed.

Lemma keyed_set collected k v :
  keyed collected → ident v = Ok k → keyed (dict_set collected k v).
Proof.
  intros [Hnd Hall] Hv. split.
  - rewrite dict_set_keys. case_decide as Hin; [done|].
    apply NoDup_app. split; [done|]. split; [|apply NoDup_singleton].
    intros x Hx ->%list_elem_of_singleton. done.
  - apply Forall_forall. intros entry [->|Hin]%dict_set_entries; [done|].
    by apply (proj1 (Forall_forall _ _) Hall).
Qed.

Lemma keyed_values collected : keyed collected → duplicate_free (dict_values collected).
Proof.
  intros [Hnd Hall]. exists (dict_keys collected). split; [|done].
  unfold dict_values, dict_keys. clear Hnd.
  induction Hall as [|[k v] d Hkv _ IH]; constructor; done.
Qed.

Lemma load_progress_keyed items collected collected' :
  keyed collected → load_progress items collected = Ok collected' → keyed collected'.
Proof.
  revert collected. induction items as [|item items IH]; intros collected Hk; simpl.
  - by intros [= <-].
  - destruct (ident item) as [uid| |] eqn:Hid; simpl; [|done..].
    apply IH. by apply keyed_set.
Qed.

Lemma collect_users_keyed users collected collected' :
  keyed collected → collect_users users collected = Ok collected' → keyed collected'.
Proof.
  revert collected. induction users as [|u users IH]; intros collected Hk; simpl.
  - by intros [= <-].
  - destruct u as [| | | | |du]; try done.
    destruct (String.eqb _ _); [by apply IH|].
    apply IH. by apply keyed_set.
Qed.

Lemma iterate_users_keyed users collected collected' :
  keyed collected → iterate_users users collected = Ok collected' → keyed collected'.
Proof. destruct users; try done. apply collect_users_keyed. Qed.

Lemma page_loop_writes pages collected writes :
  keyed collected → Forall duplicate_free writes →
  Forall duplicate_free (page_loop pages collected writes).1
  ∧ ∀ collected', (page_loop pages collected writes).2 = Some (Ok collected') →
      keyed collected'.
Proof.
  revert collected writes. induction pages as [|page pages IH];
    intros collected writes Hk Hw; [by split|].
  cbn [page_loop].
  destruct page as [data| |]; cbn; [|by split..].
  destruct (obj_get data "users" (VList [])) as [users| |]; cbn; [|by split..].
  destruct (truthy users); cbn.
  - destruct (iterate_users users collected) as [collected1| |] eqn:Hit; cbn;
      [|by split..].
    destruct (obj_get data "next_max_id" VNone) as [next_id| |]; cbn; [|by split..].
    assert (keyed collected1) as Hk1 by by eapply iterate_users_keyed.
    assert (Forall duplicate_free (writes ++ [dict_values collected1])) as Hw1.
    { apply Forall_app. split; [done|]. constructor; [|done]. by apply keyed_values. }
    destruct (truthy next_id); [by apply IH|].
    split; [done|]. by intros ? [= <-].
  - split; [done|]. by intros ? [= <-].
Qed.

Lemma cmd_followers_writes followers_file pages :
  Forall duplicate_free (cmd_followers followers_file pages).1.
Proof.
  unfold cmd_followers.
  destruct (load_progress _ _) as [collected| |] eqn:Hload; [|done..].
  assert (keyed collected) as Hk by (eapply load_progress_keyed; [apply keyed_nil|done]).
  destruct (page_loop_writes pages collected [] Hk ltac:(done)) as [Hw Hend].
  destruct (page_loop pages collected []) as [writes [[collected'| |]|]]; simpl in *;
    try done.
  apply Forall_app. split; [done|]. constructor; [|done].
  apply keyed_values. by apply Hend.
Qed.

Lemma file_after_duplicate_free followers_file writes :
  Forall duplicate_free writes →
  option_Forall duplicate_free followers_file →
  option_Forall duplicate_free (file_after followers_file writes).
Proof.
  intros Hw Hf. unfold file_after.
  destruct (List.last (map Some writes) None) as [w|] eqn:Hlast; [|done].
  constructor. clear Hf. induction writes as [|w0 writes IH]; [done|].
  apply Forall_cons in Hw as [Hw0 Hw]. destruct writes as [|w1 writes].
  - simpl in Hlast. by injection Hlast as <-.
  - by apply IH.
Qed.

Lemma restarts_duplicate_free followers_file runs :
  option_Forall duplicate_free followers_file →
  option_Forall duplicate_free (restarts followers_file runs).
Proof.
  revert followers_file. induction runs as [|pages runs IH]; intros file Hf; [done|].
  simpl. apply IH, file_after_duplicate_free; [apply cmd_followers_writes|done].
Qed.

End WithRepr.
End FollowersStore.

Module ScrapeStore.
Import Apify ApifyToReport ScrapeSpec PyFacts.

Lemma scraped_of_ids store already :
  scraped_of store = Ok already → ∀ s, VStr s ∈ ids_of store → s ∈ already.
Proof.
  revert already. induction store as [|entry store IH]; intros already Hdone s Hs.
  - by apply elem_of_nil in Hs.
  - unfold ids_of in Hs. cbn [omap list_omap] in Hs. unfold record_id in Hs at 1.
    cbn zeta in Hs. cbn [scraped_of] in Hdone.
    destruct (truthy (dict_get_none entry "username")) eqn:Ht.
    + destruct (dict_get_none entry "username") as [| | |name| |] eqn:Hname;
        try done.
      * apply elem_of_cons in Hs as [?|Hs]; [done|]. by eapply IH.
      * apply elem_of_cons in Hs as [?|Hs]; [done|]. by eapply IH.
      * destruct (scraped_of store) as [rest| |] eqn:Hrest; [|done..].
        injection Hdone as <-.
        apply elem_of_cons in Hs as [[= ->]|Hs]; [set_solver|].
        apply elem_of_union_r. by eapply IH.
    + by eapply IH.
Qed.

Lemma ids_of_app a b : ids_of (a ++ b) = ids_of a ++ ids_of b.
Proof. apply omap_app. Qed.

Section Loop.
Variables (c : client) (remaining : list string) (batch_size : Z) (already : gset string).
Hypothesis batch_size_pos : 0 < batch_size.
Hypothesis remaining_distinct : NoDup remaining.
Hypothesis remaining_new : ∀ u, u ∈ remaining → u ∉ already.
Hypothesis backend : one_record_per_username c.

Lemma batch_fresh i u :
  0 ≤ i →
  u ∈ take (Z.to_nat batch_size) (drop (Z.to_nat i) remaining) →
  (u ∉ already) ∧ (u ∉ take (Z.to_nat i) remaining)
  ∧ u ∈ take (Z.to_nat (i + batch_size)) remaining.
Proof.
  intros Hi Hu.
  assert (u ∈ drop (Z.to_nat i) remaining) as Hdrop.
  { eapply elem_of_sublist; [done|apply sublist_take]. }
  split; [|split].
  - apply remaining_new. eapply elem_of_sublist; [done|apply sublist_drop].
  - pose proof remaining_distinct as Hnd.
    rewrite <- (take_drop (Z.to_nat i) remaining) in Hnd.
    apply NoDup_app in Hnd as (_ & Hdisj & _). intros Htake. by apply (Hdisj u).
  - replace (Z.to_nat (i + batch_size)) with (Z.to_nat i + Z.to_nat batch_size)%nat by lia.
    rewrite <- take_take_drop. apply elem_of_app. by right.
Qed.

Lemma batch_loop_clean fuel i st :
  0 ≤ i → clean remaining already i st →
  ∃ j, clean remaining already j (batch_loop c remaining batch_size
                  (range_up fuel i (len remaining) batch_size) st).
Proof.
  revert i st. induction fuel as [|fuel IH]; intros i st Hi Hclean; [by exists i|].
  cbn [range_up]. destruct (i <? len remaining); [|by exists i].
  cbn [batch_loop]. rewrite py_slice_window by lia.
  set (batch := take (Z.to_nat batch_size) (drop (Z.to_nat i) remaining)).
  destruct Hclean as (Hnd & Hknown & Hfile & Hsaves).
  destruct (c _ batch) as [status items|e] eqn:Hcall.
  - assert (NoDup batch) as Hbatch.
    { assert (batch `sublist_of` remaining) as Hsub
        by (etrans; [apply sublist_take|apply sublist_drop]).
      eauto using sublist_NoDup. }
    destruct (backend _ _ _ _ Hbatch Hcall) as [Hitems Hfrom].
    assert (NoDup (ids_of (existing st ++ items))) as Hnd'.
    { rewrite ids_of_app. apply NoDup_app. split; [done|]. split; [|done].
      intros v Hv Hv'. destruct (Hfrom v Hv') as (u & Hu & ->).
      destruct (batch_fresh i u Hi Hu) as (Hdone & Htake & _).
      destruct (Hknown u Hv); done. }
    apply (IH (i + batch_size)); [lia|]. split; [done|]. split; [|split]; simpl.
    + intros u Hu. rewrite ids_of_app in Hu. apply elem_of_app in Hu as [Hu|Hu].
      * destruct (Hknown u Hu) as [?|Htake]; [by left|right].
        replace (Z.to_nat (i + batch_size))
          with (Z.to_nat i + Z.to_nat batch_size)%nat by lia.
        rewrite <- take_take_drop. apply elem_of_app. by left.
      * destruct (Hfrom _ Hu) as (u' & Hu' & [= ->]). right.
        by apply (batch_fresh i u' Hi Hu').
    + by intros content [= <-].
    + intros content Hin. unfold saves in Hin. rewrite omap_app in Hin.
      apply elem_of_app in Hin as [Hin|Hin]; [by apply Hsaves|].
      cbn in Hin. by apply list_elem_of_singleton in Hin as ->.
  - exists i. split; [done|]. split; [done|]. split; [done|]. simpl.
    intros content Hin. unfold saves in Hin. rewrite omap_app in Hin.
    apply elem_of_app in Hin as [Hin|Hin]; [by apply Hsaves|].
    cbn in Hin. by apply elem_of_nil in Hin.
Qed.

End Loop.

Lemma record_id_profile u :
  record_id (profile_of u) = if decide (u = ""%string) then None else Some (VStr u).
Proof.
  unfold record_id, profile_of, dict_get_none, dict_get. cbn.
  rewrite decide_True by done. cbn.
  destruct (String.eqb_spec u ""); by case_decide.
Qed.

Lemma ids_of_profiles batch :
  ids_of (map profile_of batch) = VStr <$> filter (λ u, u ≠ ""%string) batch.
Proof.
  induction batch as [|u batch IH]; [done|].
  unfold ids_of in *. cbn [map omap list_omap]. rewrite record_id_profile, IH.
  rewrite filter_cons. destruct (decide (u = ""%string)) as [->|Hne].
  - by rewrite decide_False by (by intros ?).
  - by rewrite decide_True.
Qed.

#[local] Instance VStr_inj : Inj (=) (=) VStr.
Proof. by intros s1 s2 [= ->]. Qed.

Lemma echo_client_one_record : one_record_per_username echo_client.
Proof.
  intros n batch status items Hnd [= _ <-]. rewrite ids_of_profiles. split.
  - apply (NoDup_fmap_2 _). by apply NoDup_filter.
  - intros v (u & -> & Hu)%list_elem_of_fmap.
    apply list_elem_of_filter in Hu as [_ Hu]. eauto.
Qed.

End ScrapeStore.

Module ResultStore.
Import Apify ApifyToReport ScrapeSpec PyFacts ScrapeStore StoreSpec FollowersStore.

Lemma remaining_fresh all_usernames (already : gset string) u :
  u ∈ remaining all_usernames already → u ∉ already.
Proof. unfold remaining. by intros [? _]%list_elem_of_filter. Qed.

Lemma remaining_no_repeat all_usernames (already : gset string) :
  NoDup all_usernames → NoDup (remaining all_usernames already).
Proof. apply NoDup_filter. Qed.

Lemma load_already_scraped_ids file already :
  load_already_scraped file = Ok already →
  ∀ s, VStr s ∈ ids_of (default [] file) → s ∈ already.
Proof.
  destruct file as [store|]; simpl.
  - apply scraped_of_ids.
  - intros _ s Hs. by apply elem_of_nil in Hs.
Qed.

(** The state [collect] leaves behind holds no identifier twice, in the
    raw file and in every content saved on the way. *)
Lemma collect_clean (c : client) all_usernames file batch_size :
  NoDup all_usernames → NoDup (ids_of (default [] file)) →
  one_record_per_username c →
  let st := (collect c all_usernames file batch_size).1 in
  (∀ content, raw_file st = Some content → NoDup (ids_of content))
  ∧ (∀ content, content ∈ saves (trace st) → NoDup (ids_of content)).
Proof.
  intros Hnd Hstore Hc.
  assert (∀ content, file = Some content → NoDup (ids_of content)) as Hfile
    by by intros content ->.
  assert (∀ content : list dict, content ∈ saves [] → NoDup (ids_of content))
    as Hnone by (intros content Hin; by apply elem_of_nil in Hin).
  unfold collect.
  destruct (load_already_scraped file) as [already| |] eqn:Hload; [|by split..].
  destruct (remaining all_usernames already) as [|u0 rest] eqn:Hrem; [by split|].
  rewrite <- Hrem.
  destruct (total_batches _ _); [|by split..].
  unfold py_range. destruct (batch_size =? 0); [by split|].
  destruct (Z.ltb_spec 0 batch_size) as [Hpos|Hneg]; cbn [fst].
  - destruct (batch_loop_clean c (remaining all_usernames already) batch_size already
                Hpos (remaining_no_repeat _ _ Hnd) (remaining_fresh _ _) Hc
                (Z.to_nat (len (remaining all_usernames already) - 0)) 0
                {| existing := default [] file; raw_file := file; trace := [] |}
                ltac:(lia))
      as (j & _ & _ & Hf & Hs).
    { split; [done|]. split; [|by split]. simpl. intros s Hs. left.
      by eapply load_already_scraped_ids. }
    by split.
  - unfold range_neg. rewrite Z2Nat.nonpos by (unfold len; lia). by split.
Qed.

Lemma cmd_scrape_state (c : client) handle_to_date all_usernames file batch_size :
  raw_file (cmd_scrape c handle_to_date all_usernames file batch_size).1
  = raw_file (collect c all_usernames file batch_size).1
  ∧ saves (trace (cmd_scrape c handle_to_date all_usernames file batch_size).1)
    = saves (trace (collect c all_usernames file batch_size).1).
Proof.
  unfold cmd_scrape. destruct (collect _ _ _ _) as [st [[]| |]]; [|done..]. simpl.
  destruct (raw_file st) as [content|] eqn:Hfile; [|done].
  destruct (convert_apify_to_csv _ _); simpl; rewrite ?Hfile;
    (split; [done|]); unfold saves; rewrite omap_app; cbn; by rewrite app_nil_r.
Qed.

Section WithRepr.
Context `{ContainerRepr}.

(** C5, as the code has it. The followers file of ig_api_scraper, which
    [cmd_followers] keeps in a dictionary keyed by identifier, never holds
    an identifier twice, whatever the pages bring and however often the
    command is started again. The raw file of apify_to_report is appended
    to: it holds no username twice after a run provided it held none
    before, the usernames to scrape are pairwise distinct, and the backend
    answers a batch of distinct usernames with at most one record for each
    of them. *)
Theorem result_store_duplicate_free
    (followers_file : option (list value)) (runs : list (list (result value)))
    (c : client) (handle_to_date : dict) (all_usernames : list string)
    (raw_file0 : option (list dict)) (batch_size : Z) :
  NoDup all_usernames →
  NoDup (ids_of (default [] raw_file0)) →
  one_record_per_username c →
  (∀ pages, Forall duplicate_free
              (IgApiScraper.cmd_followers followers_file pages).1)
  ∧ option_Forall duplicate_free (IgApiScraper.restarts None runs)
  ∧ (option_Forall duplicate_free followers_file →
     option_Forall duplicate_free (IgApiScraper.restarts followers_file runs))
  ∧ (∀ content,
       raw_file (cmd_scrape c handle_to_date all_usernames raw_file0 batch_size).1
       = Some content → NoDup (ids_of content))
  ∧ (∀ content,
       content ∈ saves (trace (cmd_scrape c handle_to_date all_usernames
                                 raw_file0 batch_size).1) →
       NoDup (ids_of content)).
Proof.
  intros Hnd Hstore Hc.
  split; [intros pages; apply cmd_followers_writes|].
  split; [apply restarts_duplicate_free; constructor|].
  split; [apply restarts_duplicate_free|].
  destruct (cmd_scrape_state c handle_to_date all_usernames raw_file0 batch_size)
    as [-> ->].
  by apply collect_clean.
Qed.

End WithRepr.

Lemma result_store_duplicate_free_witness :
  raw_file (cmd_scrape echo_client [] ["a"; "b"; "c"]%string None 2).1
  = Some [profile_of "a"; profile_of "b"; profile_of "c"]
  ∧ NoDup (ids_of [profile_of "a"; profile_of "b"; profile_of "c"]).
Proof.
  split; [reflexivity|].
  destruct (result_store_duplicate_free (H := λ _, ""%string) None [] echo_client []
              ["a"; "b"; "c"]%string None 2) as (_ & _ & _ & Hfile & _).
  - by apply (bool_decide_unpack _).
  - constructor.
  - apply echo_client_one_record.
  - by apply Hfile.
Defined.

(** A username listed twice is scraped twice and stored twice. *)
Lemma repeated_username_stored_twice :
  raw_file (cmd_scrape echo_client [] ["alice"; "alice"]%string None 1000).1
  = Some [profile_of "alice"; profile_of "alice"]
  ∧ ¬ NoDup (ids_of [profile_of "alice"; profile_of "alice"]).
Proof.
  split; [reflexivity|].
  intros Hnd. apply NoDup_cons in Hnd as [Hnot _]. apply Hnot. left.
Qed.

(** A backend that reports an account under its canonical, lower-case
    username: asked again for "Alice" after a restart, since the store only
    knows "alice", it adds a second record for "alice". *)
Example renamed_username_stored_twice :
  let canonical : client :=
    λ _ batch, CallReturned "SUCCEEDED" (map (λ _, profile_of "alice") batch) in
  let first_run := raw_file (cmd_scrape canonical [] ["Alice"]%string None 1000).1 in
  first_run = Some [profile_of "alice"]
  ∧ raw_file (cmd_scrape canonical [] ["Alice"]%string first_run 1000).1
    = Some [profile_of "alice"; profile_of "alice"].
Proof. split; reflexivity. Qed.

End ResultStore.

(** ** Failing runs and failing batches *)

Module Failure.
Import Apify ApifyToReport ApifyScrape ScrapeSpec FailureSpec PyFacts Batching.

(** *** [wait_for_run] *)

Lemma wait_for_run_terminal before run_info after status :
  Forall (λ poll, ∃ st, dict_lookup poll "status" = Some st ∧ is_terminal st = false)
    before →
  dict_lookup run_info "status" = Some (VStr status) →
  status ∈ ["SUCCEEDED"; "FAILED"; "ABORTED"; "TIMED-OUT"]%string →
  wait_for_run (before ++ run_info :: after)
  = Some (length before,
          if decide (status = "SUCCEEDED"%string) then Ok run_info else Exit 1).
Proof.
  intros Hbefore Hstatus Hterm.
  induction Hbefore as [|poll before (st & Hst & Hnt) _ IH]; simpl.
  - unfold dict_item. rewrite Hstatus. cbn [is_terminal not_succeeded].
    rewrite bool_decide_eq_true_2 by done.
    destruct (String.eqb_spec status "SUCCEEDED"); by case_decide.
  - unfold dict_item at 1. rewrite Hst, Hnt. by rewrite IH.
Qed.

(** *** The batch loop of [cmd_scrape] *)

Section Loop.
Variables (c : client) (remaining : list string) (batch_size : Z).

#[local] Abbreviation slice := (λ i, py_slice remaining i (i + batch_size)).
#[local] Abbreviation number := (λ i, i / batch_size + 1).

Lemma batch_loop_returns before after st :
  Forall (λ i, returns c (number i) (slice i)) before →
  batch_loop c remaining batch_size (before ++ after) st
  = batch_loop c remaining batch_size after
      (batch_loop c remaining batch_size before st).
Proof.
  intros Hall. revert st. induction Hall as [|i before (status & items & Hi) _ IH];
    intros st; [done|].
  cbn [app batch_loop]. rewrite Hi. apply IH.
Qed.

Lemma batch_loop_all_return before st :
  Forall (λ i, returns c (number i) (slice i)) before →
  let st' := batch_loop c remaining batch_size before st in
  existing st' = existing st ++ (before ≫= λ i, items_of c (number i) (slice i))
  ∧ raw_file st' = (if before is [] then raw_file st else Some (existing st'))
  ∧ calls (trace st') = calls (trace st) ++ map (λ i, (number i, slice i)) before.
Proof.
  intros Hall. revert st. induction Hall as [|i before (status & items & Hi) _ IH];
    intros st.
  - cbn. by rewrite !app_nil_r.
  - cbn [batch_loop]. rewrite Hi.
    destruct (IH {| existing := existing st ++ items;
                    raw_file := Some (existing st ++ items);
                    trace := trace st ++ [EvCall (number i) (slice i);
                                          EvSave (existing st ++ items)] |})
      as (He & Hf & Hc).
    cbn zeta. split; [|split].
    + rewrite He. cbn. unfold items_of at 2. rewrite Hi. by rewrite <- app_assoc.
    + rewrite Hf. destruct before; [|done]. done.
    + rewrite Hc. cbn. unfold calls. rewrite omap_app. cbn.
      by rewrite <- app_assoc.
Qed.

(** A batch that raises ends the loop: the batches after it are not
    submitted and the store is what the batches before it left. *)
Lemma batch_loop_stops before i after st e :
  Forall (λ i, returns c (number i) (slice i)) before →
  c (number i) (slice i) = CallRaised e →
  let st' := batch_loop c remaining batch_size (before ++ i :: after) st in
  existing st' = existing st ++ (before ≫= λ i, items_of c (number i) (slice i))
  ∧ raw_file st' = (if before is [] then raw_file st else Some (existing st'))
  ∧ calls (trace st')
    = calls (trace st) ++ map (λ i, (number i, slice i)) (before ++ [i]).
Proof.
  intros Hall Hi. cbn zeta. rewrite batch_loop_returns by done.
  destruct (batch_loop_all_return before st Hall) as (He & Hf & Hc).
  cbn [batch_loop]. rewrite Hi. cbn. split; [done|]. split; [done|].
  unfold calls in *. rewrite omap_app, Hc, map_app. cbn. by rewrite <- app_assoc.
Qed.

End Loop.

Lemma bind_as_imap {A B : Type} (f : A → list B) (g : nat → A → list B) (l : list A) :
  (∀ j x, l !! j = Some x → f x = g j x) →
  l ≫= f = concat (imap g l).
Proof.
  intros Hfg. rewrite <- (imap_ext (const f) g l Hfg).
  rewrite imap_const. clear Hfg. induction l as [|x l IH]; [done|].
  rewrite bind_cons, fmap_cons. cbn [concat]. by rewrite IH.
Qed.

(** The loop as [collect] runs it, when the batch of index [k] is the first
    to raise. *)
Lemma collect_stops (c : client) all_usernames file batch_size already bs
    (k : nat) batch e :
  0 < batch_size →
  load_already_scraped file = Ok already →
  batches (remaining all_usernames already) batch_size = Ok bs →
  bs !! k = Some batch →
  (∀ (j : nat) b, (j < k)%nat → bs !! j = Some b → returns c (Z.of_nat j + 1) b) →
  c (Z.of_nat k + 1) batch = CallRaised e →
  let run := collect c all_usernames file batch_size in
  run.2 = Ok tt
  ∧ existing run.1
    = default [] file
      ++ concat (imap (λ j b, items_of c (Z.of_nat j + 1) b) (take k bs))
  ∧ raw_file run.1 = (if k is O then file else Some (existing run.1))
  ∧ calls (trace run.1) = imap (λ j b, (Z.of_nat j + 1, b)) (take (S k) bs).
Proof.
  intros Hpos Hload Hbs Hk Hbefore Hraise.
  unfold collect. rewrite Hload.
  destruct (remaining all_usernames already) as [|u0 rest] eqn:Hrem.
  { rewrite batches_ok in Hbs by done. injection Hbs as <-. by destruct k. }
  rewrite <- Hrem in *. clear Hrem u0 rest.
  set (rem := remaining all_usernames already) in *.
  rewrite batches_ok in Hbs by done. injection Hbs as <-.
  set (starts := range_pos 0 (len rem) batch_size) in *.
  assert (∀ (j : nat) i, starts !! j = Some i →
            i = Z.of_nat j * batch_size ∧ i / batch_size + 1 = Z.of_nat j + 1)
    as Hstart.
  { intros j i Hj. unfold starts in Hj. rewrite starts_lookup in Hj by done.
    destruct (_ <? _); [|done]. injection Hj as <-. split; [done|].
    rewrite Z.div_mul by lia. done. }
  rewrite list_lookup_fmap in Hk.
  destruct (starts !! k) as [i|] eqn:Hi; [|done]. injection Hk as <-.
  destruct (Hstart k i Hi) as [_ Hnum].
  assert (starts = take k starts ++ i :: drop (S k) starts) as Hsplit
    by by rewrite take_drop_middle.
  assert (Forall (λ i, returns c (i / batch_size + 1)
                         (py_slice rem i (i + batch_size))) (take k starts))
    as Hall.
  { apply Forall_forall. intros i' [j [Hj Hlt]]%elem_of_take.
    destruct (Hstart j i' Hj) as [_ ->]. apply Hbefore; [done|].
    by rewrite list_lookup_fmap, Hj. }
  rewrite <- Hnum in Hraise.
  unfold total_batches, py_floordiv, py_range.
  destruct (Z.eqb_spec batch_size 0); [lia|].
  destruct (Z.ltb_spec 0 batch_size); [|lia].
  fold starts.
  pose proof (batch_loop_stops c rem batch_size (take k starts) i (drop (S k) starts)
                {| existing := default [] file; raw_file := file; trace := [] |}
                e Hall Hraise) as Hstops.
  cbn zeta in Hstops. rewrite <- Hsplit in Hstops. destruct Hstops as (He & Hf & Hc).
  cbn [fst snd]. split; [done|]. split; [|split].
  - rewrite He. cbn [existing]. f_equal.
    rewrite <- fmap_take, imap_fmap.
    apply bind_as_imap. intros j i' [Hj _]%lookup_take_Some.
    unfold compose. by destruct (Hstart j i' Hj) as [_ ->].
  - rewrite Hf. cbn [raw_file]. destruct k as [|k]; [done|].
    destruct starts as [|? ?]; [done|]. done.
  - rewrite Hc. cbn [trace calls omap list_omap app].
    rewrite <- fmap_take, imap_fmap.
    replace (take k starts ++ [i]) with (take (S k) starts)
      by by erewrite take_S_r.
    rewrite <- (imap_const (λ i0, (i0 / batch_size + 1, py_slice rem i0 (i0 + batch_size)))).
    apply imap_ext. unfold const. intros j i' [Hj _]%lookup_take_Some.
    unfold compose. by destruct (Hstart j i' Hj) as [_ ->].
Qed.

(** The conversion raises or returns; it has no [sys.exit]. *)
Lemma convert_entry_never_exits handle_to_date entry code :
  convert_entry handle_to_date entry ≠ Exit code.
Proof.
  unfold convert_entry. destruct (negb _); [done|].
  destruct (first_external_url _) as [url| |] eqn:Hurl; cbn.
  - destruct (obj_replace_newlines _) as [bio| |] eqn:Hbio; cbn.
    + destruct (follow_date_of _ _) as [date| |] eqn:Hdate; cbn; try done.
      unfold follow_date_of in Hdate. by destruct (dict_get entry "username" _).
    + done.
    + unfold obj_replace_newlines in Hbio.
      by destruct (dict_get_none entry "biography" ||| VStr "").
  - done.
  - unfold first_external_url in Hurl.
    destruct (dict_get_none entry "externalUrls" ||| VList []) as [|b|z|s|l|d];
      cbn in Hurl; try done.
    + by destruct b.
    + by destruct (negb _).
    + by destruct s.
    + by destruct l.
    + by destruct d.
Qed.

Lemma convert_never_exits handle_to_date content code :
  convert_apify_to_csv handle_to_date content ≠ Exit code.
Proof.
  induction content as [|entry content IH]; [done|]. cbn [convert_apify_to_csv].
  pose proof (convert_entry_never_exits handle_to_date entry code).
  destruct (convert_entry handle_to_date entry) as [row| |]; cbn; try done.
  - destruct (convert_apify_to_csv handle_to_date content); cbn; try done.
  - congruence.
Qed.

(** What [cmd_scrape] adds once the loop is left: nothing is submitted or
    stored any more, the raw file is converted and analysed, and the
    process is not left with an exit code. *)
Lemma cmd_scrape_after (c : client) handle_to_date all_usernames file batch_size :
  (collect c all_usernames file batch_size).2 = Ok tt →
  let run := cmd_scrape c handle_to_date all_usernames file batch_size in
  let st := (collect c all_usernames file batch_size).1 in
  existing run.1 = existing st
  ∧ raw_file run.1 = raw_file st
  ∧ calls (trace run.1) = calls (trace st)
  ∧ (∀ code, run.2 ≠ Exit code)
  ∧ (∀ content rows,
       raw_file st = Some content →
       convert_apify_to_csv handle_to_date content = Ok rows →
       run.2 = Ok tt ∧ trace run.1 = trace st ++ [EvConvert content; EvAnalyze]).
Proof.
  unfold cmd_scrape. destruct (collect _ _ _ _) as [st r]. cbn [fst snd].
  intros ->. destruct (raw_file st) as [content|] eqn:Hfile; cbn zeta.
  - destruct (convert_apify_to_csv handle_to_date content) as [rows|e|code] eqn:Hconv;
      cbn [fst snd existing raw_file trace]; rewrite ?Hfile;
      (split; [done|]); (split; [done|]);
      (split; [unfold calls; rewrite omap_app; cbn; by rewrite app_nil_r|]).
    + split; [done|]. by intros ? ? [= <-] _.
    + split; [done|]. intros ? ? [= <-]. by rewrite Hconv.
    + by apply convert_never_exits in Hconv.
  - cbn [fst snd]. repeat split; try done.
Qed.

(** C4, as the code has it. [wait_for_run] hands back the run only when
    the first terminal status it polls is SUCCEEDED and leaves the process
    with exit code 1 on FAILED, ABORTED or TIMED-OUT. [cmd_scrape] does
    not look at the status of a run: a batch ends the collection when its
    submission or the reading of its dataset raises. Then no record of
    that batch or of a later one is stored, no later batch is submitted,
    the raw file holds what it held before followed by the records of the
    earlier batches, and the command does not exit: it converts and
    analyses what the raw file holds. *)
Theorem failed_batch_ends_collection
    (c : client) (handle_to_date : dict) (all_usernames : list string)
    (file : option (list dict)) (batch_size : Z) (already : gset string)
    (bs : list (list string)) (k : nat) (batch : list string) (e : exn) :
  0 < batch_size →
  load_already_scraped file = Ok already →
  batches (remaining all_usernames already) batch_size = Ok bs →
  bs !! k = Some batch →
  (∀ (j : nat) b, (j < k)%nat → bs !! j = Some b → returns c (Z.of_nat j + 1) b) →
  c (Z.of_nat k + 1) batch = CallRaised e →
  (∀ before run_info after status,
     Forall (λ poll, ∃ st, dict_lookup poll "status" = Some st
                           ∧ is_terminal st = false) before →
     dict_lookup run_info "status" = Some (VStr status) →
     status ∈ ["SUCCEEDED"; "FAILED"; "ABORTED"; "TIMED-OUT"]%string →
     wait_for_run (before ++ run_info :: after)
     = Some (length before,
             if decide (status = "SUCCEEDED"%string) then Ok run_info else Exit 1))
  ∧ let run := cmd_scrape c handle_to_date all_usernames file batch_size in
    existing run.1
    = default [] file
      ++ concat (imap (λ j b, items_of c (Z.of_nat j + 1) b) (take k bs))
    ∧ raw_file run.1 = (if k is O then file else Some (existing run.1))
    ∧ calls (trace run.1) = imap (λ j b, (Z.of_nat j + 1, b)) (take (S k) bs)
    ∧ (∀ code, run.2 ≠ Exit code)
    ∧ (∀ content rows,
         raw_file run.1 = Some content →
         convert_apify_to_csv handle_to_date content = Ok rows →
         run.2 = Ok tt
         ∧ ∃ before, trace run.1 = before ++ [EvConvert content; EvAnalyze]).
Proof.
  intros Hpos Hload Hbs Hk Hbefore Hraise.
  split; [apply wait_for_run_terminal|].
  destruct (collect_stops c all_usernames file batch_size already bs k batch e
              Hpos Hload Hbs Hk Hbefore Hraise) as (Hok & He & Hf & Hc).
  destruct (cmd_scrape_after c handle_to_date all_usernames file batch_size Hok)
    as (He' & Hf' & Hc' & Hexit & Hconv).
  cbn zeta. rewrite He', Hf', Hc'. split; [done|]. split; [done|]. split; [done|].
  split; [done|]. intros content rows Hfile Hrows.
  destruct (Hconv content rows Hfile Hrows) as [Hret Htrace]. split; [done|]. eauto.
Qed.

(** The scenario of the specification, with a second submission that
    raises: the raw file ends with the 50 records of the first batch, the
    third batch is never submitted, and the command returns after the
    conversion and the analysis. *)
Lemma failed_batch_ends_collection_witness :
  let run := cmd_scrape raising_client [] usernames137 None 50 in
  raw_file run.1 = Some (map profile_of (take 50 usernames137))
  ∧ calls (trace run.1)
    = [(1, take 50 usernames137); (2, take 50 (drop 50 usernames137))]
  ∧ run.2 = Ok tt.
Proof.
  destruct (failed_batch_ends_collection raising_client [] usernames137 None 50 ∅
              [take 50 usernames137; take 50 (drop 50 usernames137);
               drop 100 usernames137]
              1 (take 50 (drop 50 usernames137)) OtherException)
    as (_ & He & Hf & Hc & _ & Hend).
  - lia.
  - reflexivity.
  - vm_compute. reflexivity.
  - reflexivity.
  - intros [|j] b Hj Hb; [|lia]. injection Hb as <-. by eexists _, _.
  - reflexivity.
  - cbn zeta in *. split; [|split].
    + rewrite Hf, He. reflexivity.
    + rewrite Hc. reflexivity.
    + eapply Hend; [by rewrite Hf, He|]. vm_compute. reflexivity.
Defined.

(** The same scenario when the second run comes back with status FAILED:
    its ten records are stored and the third batch is submitted and stored
    as well; and, in the scenario with the raising submission, the command
    returns normally. *)
Lemma failed_run_is_not_fatal :
  let run := cmd_scrape failed_run_client [] usernames137 None 50 in
  (∃ b1 b2 b3, batches usernames137 50 = Ok [b1; b2; b3]
               ∧ (length b1, length b2, length b3) = (50, 50, 37)%nat)
  ∧ raw_file run.1
    = Some (map profile_of (take 60 usernames137 ++ drop 100 usernames137))
  ∧ raw_file run.1 ≠ Some (map profile_of (take 50 usernames137))
  ∧ map fst (calls (trace run.1)) = [1; 2; 3]
  ∧ run.2 = Ok tt
  ∧ (cmd_scrape raising_client [] usernames137 None 50).2 = Ok tt.
Proof.
  cbn zeta. split; [eexists _, _, _; split; vm_compute; reflexivity|].
  split; [vm_compute; reflexivity|].
  split.
  - intros Heq. apply (f_equal (λ f, length <$> f)) in Heq.
    vm_compute in Heq. discriminate.
  - split; [vm_compute; reflexivity|]. split; vm_compute; reflexivity.
Qed.

End Failure.

(** ** The retry loop of [api_get] *)

Module Retry.
Import Http RetrySpec PyFacts.

Lemma consecutive_cons a x attempts :
  consecutive a (x :: attempts) → x = a ∧ consecutive (a + 1) attempts.
Proof.
  intros Hc. split.
  - rewrite (Hc O x eq_refl). lia.
  - intros i y Hy. rewrite (Hc (S i) y Hy). lia.
Qed.

Lemma consecutive_range1 n : consecutive 0 (py_range1 n).
Proof.
  intros i x. rewrite py_range1_lookup.
  destruct (Z.ltb_spec (Z.of_nat i) n); [|done]. intros [= <-]. lia.
Qed.

Section Loop.
Variables (rate_limit_wait error_wait : Z → Z).
Variables (s : session) (max_retries : Z).

#[local] Abbreviation loop := (retry_loop rate_limit_wait error_wait s max_retries).

(** One turn of the loop either ends the call after its request, or sleeps
    one of the two delays of this attempt and goes on. *)
Lemma loop_step attempt rest :
  (loop (attempt :: rest)).1 = [Request attempt]
  ∨ ∃ wait, (wait = rate_limit_wait attempt ∨ wait = error_wait attempt)
      ∧ loop (attempt :: rest)
        = (Request attempt :: Sleep wait :: (loop rest).1, (loop rest).2).
Proof.
  cbn [retry_loop].
  destruct (s attempt) as [code body|].
  - destruct (code =? 429); [right; eauto|].
    destruct (code =? 401); [by left|].
    destruct (code =? 404); [by left|].
    destruct (raise_for_status code); [destruct body| |]; try (by left);
      destruct (attempt =? max_retries - 1); try (by left); right; eauto.
  - destruct (attempt =? max_retries - 1); [by left|right; eauto].
Qed.

Lemma loop_requests attempts :
  requests (loop attempts).1 `prefix_of` attempts.
Proof.
  induction attempts as [|attempt rest IH]; [done|].
  destruct (loop_step attempt rest) as [->|(wait & _ & ->)]; cbn.
  - apply prefix_cons, prefix_nil.
  - by apply prefix_cons.
Qed.

(** Every delay slept is one of the two delays of some attempt of the
    loop. *)
Lemma loop_sleeps attempts :
  Forall (λ w, ∃ a, a ∈ attempts ∧ (w = rate_limit_wait a ∨ w = error_wait a))
    (sleeps (loop attempts).1).
Proof.
  induction attempts as [|attempt rest IH]; [by constructor|].
  destruct (loop_step attempt rest) as [->|(wait & Hw & ->)]; cbn.
  - constructor.
  - constructor.
    + exists attempt. split; [left|done].
    + eapply Forall_impl; [exact IH|].
      intros w (a & Ha & Hwa). exists a. split; [by right|done].
Qed.

(** When no delay of an attempt exceeds a delay of a later attempt, the
    delays slept are in non-decreasing order. *)
Hypothesis waits_grow : ∀ a b w w',
  0 ≤ a < b →
  w = rate_limit_wait a ∨ w = error_wait a →
  w' = rate_limit_wait b ∨ w' = error_wait b →
  w ≤ w'.

Lemma loop_sleeps_sorted a attempts :
  0 ≤ a → consecutive a attempts →
  StronglySorted Z.le (sleeps (loop attempts).1).
Proof.
  revert a. induction attempts as [|attempt rest IH]; intros a Ha Hc;
    [by constructor|].
  apply consecutive_cons in Hc as [-> Hc].
  destruct (loop_step a rest) as [->|(wait & Hw & ->)]; cbn.
  - constructor.
  - constructor; [by apply (IH (a + 1)); [lia|]|].
    eapply Forall_impl; [apply loop_sleeps|].
    intros w (b & Hb & Hwb). simpl in *.
    apply list_elem_of_lookup in Hb as [i Hi]. apply Hc in Hi.
    apply (waits_grow a b); [lia|done|done].
Qed.

End Loop.

(** The two delay schedules. *)
Lemma pow2_le a b : 0 ≤ a ≤ b → 2 ^ a ≤ 2 ^ b.
Proof. intros. apply Z.pow_le_mono_r; lia. Qed.

Lemma pow2_step a : 0 ≤ a → 2 ^ (a + 1) = 2 * 2 ^ a.
Proof. intros. rewrite Z.pow_add_r by lia. lia. Qed.

Lemma pow2_pos a : 0 ≤ a → 0 < 2 ^ a.
Proof. intros. apply Z.pow_pos_nonneg; lia. Qed.

Lemma ig_waits_grow a b w w' :
  0 ≤ a < b →
  w = IgApiScraper.rate_limit_wait a ∨ w = IgApiScraper.error_wait a →
  w' = IgApiScraper.rate_limit_wait b ∨ w' = IgApiScraper.error_wait b →
  w ≤ w'.
Proof.
  unfold IgApiScraper.rate_limit_wait, IgApiScraper.error_wait.
  intros Hab Hw Hw'.
  pose proof (pow2_le (a + 1) b ltac:(lia)).
  pose proof (pow2_step a ltac:(lia)).
  pose proof (pow2_pos a ltac:(lia)).
  destruct Hw as [-> | ->], Hw' as [-> | ->]; lia.
Qed.

Lemma export_waits_grow a b w w' :
  0 ≤ a < b →
  w = ExportScraper.rate_limit_wait a ∨ w = ExportScraper.error_wait a →
  w' = ExportScraper.rate_limit_wait b ∨ w' = ExportScraper.error_wait b →
  w ≤ w'.
Proof.
  unfold ExportScraper.rate_limit_wait, ExportScraper.error_wait.
  intros Hab Hw Hw'.
  pose proof (pow2_le (a + 1) b ltac:(lia)).
  pose proof (pow2_step a ltac:(lia)).
  pose proof (pow2_pos a ltac:(lia)).
  destruct Hw as [-> | ->], Hw' as [-> | ->]; lia.
Qed.

Lemma requests_bound (tr : list event) (n : Z) :
  requests tr `prefix_of` py_range1 n → len (requests tr) ≤ Z.max 0 n.
Proof.
  intros Hp. apply prefix_length in Hp. rewrite py_range1_length in Hp.
  unfold len. lia.
Qed.

Lemma ig_default_waits_capped a w :
  a ∈ py_range1 IgApiScraper.default_max_retries →
  w = IgApiScraper.rate_limit_wait a ∨ w = IgApiScraper.error_wait a →
  w ≤ 900.
Proof.
  intros Ha Hw. vm_compute in Ha.
  repeat (apply elem_of_cons in Ha as [->|Ha]);
    [| | |by apply elem_of_nil in Ha];
    destruct Hw as [-> | ->]; by vm_compute.
Qed.

(** C6. In any call of [api_get], whatever the session answers, the delays
    slept come in non-decreasing order and the requests made are at most
    [max_retries]. In export_scraper no delay exceeds 900 seconds; in
    ig_api_scraper, whose delay is not capped, none does for the
    [max_retries] of 3 that every call there runs with. *)
Theorem backoff_monotone_and_bounded (s : session) (max_retries : Z) :
  (StronglySorted Z.le (sleeps (ExportScraper.api_get s max_retries).1)
   ∧ Forall (λ w, w ≤ 900) (sleeps (ExportScraper.api_get s max_retries).1)
   ∧ len (requests (ExportScraper.api_get s max_retries).1) ≤ Z.max 0 max_retries)
  ∧ (StronglySorted Z.le (sleeps (IgApiScraper.api_get s max_retries).1)
     ∧ Forall (λ w, w ≤ 900)
         (sleeps (IgApiScraper.api_get s IgApiScraper.default_max_retries).1)
     ∧ len (requests (IgApiScraper.api_get s max_retries).1) ≤ Z.max 0 max_retries).
Proof.
  unfold ExportScraper.api_get, IgApiScraper.api_get. split; split_and!.
  - eapply loop_sleeps_sorted;
      [apply export_waits_grow | reflexivity | apply consecutive_range1].
  - eapply Forall_impl; [apply loop_sleeps|].
    intros w (a & _ & [-> | ->]);
      unfold ExportScraper.rate_limit_wait, ExportScraper.error_wait; lia.
  - apply requests_bound, loop_requests.
  - eapply loop_sleeps_sorted;
      [apply ig_waits_grow | reflexivity | apply consecutive_range1].
  - eapply Forall_impl; [apply loop_sleeps|].
    intros w (a & Ha & Hw). by apply (ig_default_waits_capped a).
  - apply requests_bound, loop_requests.
Qed.

End Retry.

Module RetryOutcomes.
Import Http RetrySpec SessionSpec PyFacts Retry.

Section Loop.
Variables (rate_limit_wait error_wait : Z → Z).
Variables (s : session) (max_retries : Z).

#[local] Abbreviation loop := (retry_loop rate_limit_wait error_wait s max_retries).

(** A loop that meets nothing but status 429 sleeps after every request
    and falls through to the final [return {}]. *)
Lemma loop_all_rate_limited attempts :
  (∀ a, a ∈ attempts → ∃ body, s a = Response 429 body) →
  loop attempts
  = (attempts ≫= (λ a, [Request a; Sleep (rate_limit_wait a)]), Ok (VDict [])).
Proof.
  induction attempts as [|attempt rest IH]; intros Hall; [done|].
  destruct (Hall attempt) as [body Hs]; [left|].
  cbn [retry_loop]. rewrite Hs. cbn.
  rewrite IH; [done|]. intros a Ha. apply Hall. by right.
Qed.

(** A 401 ends the call at the request that receives it. *)
Lemma loop_unauthorized attempts a body :
  Request a ∈ (loop attempts).1 →
  s a = Response 401 body →
  (loop attempts).2 = Exit 1
  ∧ ∃ before, (loop attempts).1 = before ++ [Request a].
Proof.
  intros Hin Hs. induction attempts as [|attempt rest IH];
    [by apply elem_of_nil in Hin|].
  destruct (decide (attempt = a)) as [->|Hne].
  - cbn [retry_loop]. rewrite Hs. cbn. split; [done|]. by exists [].
  - destruct (loop_step rate_limit_wait error_wait s max_retries attempt rest)
      as [Hone|(wait & _ & Hgo)].
    + rewrite Hone in Hin. apply list_elem_of_singleton in Hin. congruence.
    + rewrite Hgo in Hin |- *. cbn in Hin |- *.
      apply elem_of_cons in Hin as [?|Hin]; [congruence|].
      apply elem_of_cons in Hin as [?|Hin]; [done|].
      destruct (IH Hin) as [Hexit [before Hbefore]].
      split; [done|]. exists (Request attempt :: Sleep wait :: before).
      by rewrite Hbefore.
Qed.

(** A request exception on the last attempt is raised to the caller. *)
Lemma loop_last_attempt_raises rest :
  s (max_retries - 1) = NoResponse →
  loop ((max_retries - 1) :: rest)
  = ([Request (max_retries - 1)], Raise RequestException).
Proof. intros Hs. cbn [retry_loop]. rewrite Hs. by rewrite Z.eqb_refl. Qed.

End Loop.

Lemma range1_bounds n a : a ∈ py_range1 n → 0 ≤ a < n.
Proof.
  intros Ha. apply list_elem_of_lookup in Ha as [i Hi].
  rewrite py_range1_lookup in Hi.
  destruct (Z.ltb_spec (Z.of_nat i) n); [|done].
  injection Hi as <-. lia.
Qed.

(** C7, as the code has it. When every attempt of [api_get] is answered
    with status 429, the call sleeps after each of them and then returns
    the empty dictionary, the value it also returns for a 404; nothing is
    raised and the process is not left. *)
Theorem rate_limit_exhaustion_returns_empty (s : session) (max_retries : Z) :
  (∀ a, 0 ≤ a < max_retries → ∃ body, s a = Response 429 body) →
  ExportScraper.api_get s max_retries
  = (py_range1 max_retries ≫= (λ a, [Request a; Sleep (ExportScraper.rate_limit_wait a)]),
     Ok (VDict []))
  ∧ IgApiScraper.api_get s max_retries
    = (py_range1 max_retries ≫= (λ a, [Request a; Sleep (IgApiScraper.rate_limit_wait a)]),
       Ok (VDict [])).
Proof.
  intros Hall. unfold ExportScraper.api_get, IgApiScraper.api_get.
  split; apply loop_all_rate_limited; intros a Ha; by apply Hall, range1_bounds.
Qed.

Lemma rate_limit_exhaustion_returns_empty_witness :
  ExportScraper.api_get always_rate_limited 8
  = ([Request 0; Sleep 60; Request 1; Sleep 120; Request 2; Sleep 240;
      Request 3; Sleep 480; Request 4; Sleep 900; Request 5; Sleep 900;
      Request 6; Sleep 900; Request 7; Sleep 900], Ok (VDict []))
  ∧ IgApiScraper.api_get always_rate_limited 8
    = ([Request 0; Sleep 60; Request 1; Sleep 120; Request 2; Sleep 240;
        Request 3; Sleep 480; Request 4; Sleep 960; Request 5; Sleep 1920;
        Request 6; Sleep 3840; Request 7; Sleep 7680], Ok (VDict [])).
Proof.
  apply (rate_limit_exhaustion_returns_empty always_rate_limited 8).
  intros a _. by exists None.
Defined.

(** With its own [max_retries] of 3 the copy of ig_api_scraper sleeps 60,
    120 and 240 seconds and returns the empty dictionary as well. *)
Example ig_rate_limit_exhaustion :
  IgApiScraper.api_get always_rate_limited IgApiScraper.default_max_retries
  = ([Request 0; Sleep 60; Request 1; Sleep 120; Request 2; Sleep 240], Ok (VDict [])).
Proof. reflexivity. Qed.

(** Not found gives the same value: the caller cannot tell the two apart. *)
Example not_found_returns_empty :
  ExportScraper.api_get (λ _, Response 404 None) 8 = ([Request 0], Ok (VDict [])).
Proof. reflexivity. Qed.

(** A request exception on every attempt, by contrast, is raised. *)
Example request_exceptions_are_raised :
  (ExportScraper.api_get (λ _, NoResponse) 8).2 = Raise RequestException
  ∧ (IgApiScraper.api_get (λ _, NoResponse) 3).2 = Raise RequestException.
Proof. split; reflexivity. Qed.

(** C8. A 401 is fatal on the spot, in both copies of [api_get]: whatever
    [max_retries] is and whatever came before, the call that makes a
    request answered with 401 leaves the process with exit code 1, and that
    request is the last thing it does, with no sleep and no request after
    it. *)
Theorem unauthorized_is_fatal (s : session) (max_retries : Z) (a : Z) body :
  s a = Response 401 body →
  (Request a ∈ (ExportScraper.api_get s max_retries).1 →
     (ExportScraper.api_get s max_retries).2 = Exit 1
     ∧ ∃ before, (ExportScraper.api_get s max_retries).1 = before ++ [Request a])
  ∧ (Request a ∈ (IgApiScraper.api_get s max_retries).1 →
     (IgApiScraper.api_get s max_retries).2 = Exit 1
     ∧ ∃ before, (IgApiScraper.api_get s max_retries).1 = before ++ [Request a]).
Proof.
  intros Hs. split; intros Hin; eapply loop_unauthorized; eauto.
Qed.

(** Rate limited once, then refused: one sleep, then the exit, with six
    attempts left unused. *)
Lemma unauthorized_is_fatal_witness :
  ExportScraper.api_get refused_at_second 8 = ([Request 0; Sleep 60; Request 1], Exit 1)
  ∧ (ExportScraper.api_get refused_at_second 8).2 = Exit 1
  ∧ ∃ before, (ExportScraper.api_get refused_at_second 8).1 = before ++ [Request 1].
Proof.
  split; [reflexivity|].
  apply (unauthorized_is_fatal refused_at_second 8 1 None eq_refl).
  vm_compute. do 2 right. left.
Defined.

End RetryOutcomes.

(** ** The relationship entries of an export *)

Module Relationships.
Import ExportScraper RelationshipSpec.

Lemma follow_date_of_spec timestamp follow_date :
  follow_date_of timestamp = Ok follow_date → date_of timestamp follow_date.
Proof.
  unfold follow_date_of. destruct (truthy timestamp) eqn:Ht.
  - destruct timestamp as [|b|z| | |]; try done.
    + simpl in Ht. subst b. intros Hd. right. exists 1. split; [by right|]. done.
    + intros Hd. right. exists z. split; [by left|]. split; [|done].
      simpl in Ht. intros ->. done.
  - intros [= <-]. by left.
Qed.

Lemma parse_sd_spec sd outcome : parse_sd sd = Ok outcome → entry_of sd outcome.
Proof.
  unfold parse_sd. destruct sd as [| | | | |d]; try done.
  unfold stripped_value.
  destruct (dict_get d "value" (VStr "")) as [| | |v| |] eqn:Hv; try done.
  cbn. destruct (String.eqb_spec (str_strip v) "") as [Hempty|Hfull]; cbn.
  - destruct (username_from_href _) as [username| |] eqn:Hhref; try done. cbn.
    destruct (String.eqb_spec username "") as [->|Hname].
    + intros [= <-]. exists d. split; [done|]. by exists v.
    + destruct (follow_date_of _) as [date| |] eqn:Hdate; try done. cbn.
      intros [= <-]. exists d. split; [done|]. exists username, date.
      split; [done|]. split; [|by apply follow_date_of_spec].
      right. unfold username_from_href in Hhref.
      destruct (dict_get d "href" (VStr "")) as [| | |href|l|d'] eqn:Hh; try done.
      * destruct (str_contains _ href) eqn:Hc; [|by injection Hhref as <-].
        injection Hhref as <-. by exists v, href.
      * destruct (existsb _ l); [done|]. by injection Hhref as <-.
      * destruct (bool_decide _); [done|]. by injection Hhref as <-.
  - destruct (String.eqb_spec (str_strip v) ""); [done|].
    destruct (follow_date_of _) as [date| |] eqn:Hdate; try done. cbn.
    intros [= <-]. exists d. split; [done|]. exists (str_strip v), date.
    split; [done|]. split; [|by apply follow_date_of_spec].
    left. by exists v.
Qed.

Lemma parse_string_data_spec string_data entries0 entries :
  parse_string_data string_data entries0 = Ok entries →
  ∃ outcomes,
    Forall2 entry_of string_data outcomes ∧ entries = entries0 ++ omap id outcomes.
Proof.
  revert entries0. induction string_data as [|sd rest IH]; intros entries0; simpl.
  - intros [= <-]. exists []. split; [constructor|]. by rewrite app_nil_r.
  - destruct (parse_sd sd) as [outcome| |] eqn:Hsd; try done. cbn.
    intros Hrest. destruct (IH _ Hrest) as (outcomes & Hall & ->).
    exists (outcome :: outcomes). split.
    + constructor; [by apply parse_sd_spec|done].
    + destruct outcome; cbn; [by rewrite <- app_assoc|done].
Qed.

Lemma parse_items_spec items entries0 entries :
  parse_items items entries0 = Ok entries →
  ∃ outcomes,
    Forall2 entry_of (items ≫= string_data_of_item) outcomes
    ∧ entries = entries0 ++ omap id outcomes.
Proof.
  revert entries0. induction items as [|item rest IH]; intros entries0; simpl.
  - intros [= <-]. exists []. split; [constructor|]. by rewrite app_nil_r.
  - destruct item as [| | | | |d]; try done. cbn.
    destruct (truthy (dict_get d "string_list_data" (VList []))) eqn:Ht.
    + destruct (dict_get d "string_list_data" (VList [])) as [| | | |l|];
        try done. cbn.
      destruct (parse_string_data l entries0) as [entries1| |] eqn:Hl; try done.
      cbn. intros Hrest.
      destruct (parse_string_data_spec _ _ _ Hl) as (o1 & Hall1 & ->).
      destruct (IH _ Hrest) as (o2 & Hall2 & ->).
      exists (o1 ++ o2). split.
      * by apply Forall2_app.
      * by rewrite omap_app, app_assoc.
    + cbn. intros Hrest. destruct (IH _ Hrest) as (o2 & Hall2 & ->).
      exists o2. split; [|done].
      destruct (dict_get d "string_list_data" (VList [])) as [| | | |[|? ?]|];
        done.
Qed.

Lemma entry_of_well_formed sd entry : entry_of sd (Some entry) → well_formed_entry entry.
Proof.
  intros (d & _ & handle & date & -> & Hroute & Hdate).
  exists handle, date, (dict_get d "timestamp" (VInt 0)).
  split; [done|]. split; [|done].
  destruct Hroute as [(v & _ & _ & Hne)|(v & href & _ & _ & _ & _ & _ & Hne)]; done.
Qed.

(** A date, when there is one, is ten characters long with dashes after the
    year and after the month. *)
Lemma utc_date_shape z date :
  utc_date z = Ok date →
  String.length date = 10%nat
  ∧ String.get 4 date = Some "-"%char ∧ String.get 7 date = Some "-"%char.
Proof.
  unfold utc_date. destruct (_ && _); [|done].
  destruct (ord2ymd _) as [[y m] d]. by intros [= <-].
Qed.

(** C9. When [parse_relationship_entries] returns, its entries are, in
    order, those of the "string_list_data" items that yield a handle: the
    stripped "value" when that is not empty, the last path segment of an
    "href" that contains "instagram.com/" otherwise; an item that yields
    neither leaves no entry. Every entry has a handle that is not empty,
    and its follow date is the UTC day of its timestamp when that is not
    zero and the empty string when it is zero or absent. *)
Theorem relationship_entries (data : value) (entries : list dict) :
  parse_relationship_entries data = Ok entries →
  (∃ outcomes,
      Forall2 entry_of (string_data_of data) outcomes
      ∧ entries = omap id outcomes)
  ∧ Forall well_formed_entry entries.
Proof.
  intros Hparse.
  assert (∃ outcomes, Forall2 entry_of (string_data_of data) outcomes
                      ∧ entries = omap id outcomes) as (outcomes & Hall & ->).
  { unfold parse_relationship_entries in Hparse. unfold string_data_of, items_of.
    destruct data as [| | |s|items|d]; try done.
    - destruct s; [|done]. injection Hparse as <-. exists []. by split; [constructor|].
    - by apply parse_items_spec in Hparse.
    - destruct (first_list d) as [items|]; cbn.
      + by apply parse_items_spec in Hparse.
      + injection Hparse as <-. exists []. by split; [constructor|]. }
  split; [by exists outcomes|].
  clear Hparse. induction Hall as [|sd outcome sds outcomes Hsd _ IH]; [constructor|].
  destruct outcome as [entry|]; cbn; [|done].
  constructor; [by eapply entry_of_well_formed|done].
Qed.

Lemma relationship_entries_witness :
  parse_relationship_entries sample_export = Ok sample_entries
  ∧ Forall well_formed_entry sample_entries.
Proof.
  assert (parse_relationship_entries sample_export = Ok sample_entries) as Hparse
    by (vm_compute; reflexivity).
  split; [exact Hparse|].
  exact (proj2 (relationship_entries sample_export sample_entries Hparse)).
Defined.

End Relationships.

(** ** The followers file of scrape_followers *)

Module Sorting.

Lemma compare_le_trans s1 s2 s3 :
  String.compare s1 s2 ≠ Gt → String.compare s2 s3 ≠ Gt →
  String.compare s1 s3 ≠ Gt.
Proof.
  revert s2 s3. induction s1 as [|c1 s1 IH]; intros [|c2 s2] [|c3 s3]; simpl;
    try done.
  unfold Ascii.compare.
  destruct (N.compare_spec (N_of_ascii c1) (N_of_ascii c2)) as [H12|H12|H12];
    destruct (N.compare_spec (N_of_ascii c2) (N_of_ascii c3)) as [H23|H23|H23];
    destruct (N.compare_spec (N_of_ascii c1) (N_of_ascii c3)) as [H13|H13|H13];
    try done; try lia.
  apply IH.
Qed.

#[export] Instance str_le_trans : Transitive str_le.
Proof.
  intros s1 s2 s3. unfold str_le, String.leb. intros H12 H23.
  assert (String.compare s1 s3 ≠ Gt) as H13.
  { apply (compare_le_trans s1 s2 s3).
    - by destruct (String.compare s1 s2).
    - by destruct (String.compare s2 s3). }
  by destruct (String.compare s1 s3).
Qed.

#[export] Instance str_le_total : Total str_le.
Proof. intros s1 s2. apply String.leb_total. Qed.

#[export] Instance str_le_antisym : AntiSymm (=) str_le.
Proof. intros s1 s2. apply String.leb_antisym. Qed.

(** [sorted(s)] lists the elements of the set, each once, in order. *)
Lemma py_sorted_spec (s : gset string) :
  StronglySorted str_le (py_sorted s)
  ∧ NoDup (py_sorted s)
  ∧ ∀ u, u ∈ py_sorted s ↔ u ∈ s.
Proof.
  unfold py_sorted. split; [apply (StronglySorted_merge_sort _)|]. split.
  - rewrite merge_sort_Permutation. apply NoDup_elements.
  - intros u. rewrite merge_sort_Permutation. apply elem_of_elements.
Qed.

End Sorting.

Module FollowersFile.
Import ScrapeFollowers FollowersFileSpec Sorting.

Lemma visit_sound start username p : sound start p → sound start (visit username p).
Proof.
  intros [Hsub Hw]. unfold visit. case_decide; [done|]. split; simpl.
  - set_solver.
  - destruct (_ =? 0); [|done]. apply Forall_app. split; [done|].
    constructor; [|done]. eexists. split; [|done]. set_solver.
Qed.

Lemma consume_sound start usernames p :
  sound start p → sound start (consume usernames p).
Proof.
  unfold consume. revert p. induction usernames as [|u us IH]; intros p Hp; [done|].
  simpl. by apply IH, visit_sound.
Qed.

Lemma attempt_loop_sound start feeds attempts p :
  sound start p → sound start (attempt_loop feeds attempts p).1.
Proof.
  revert p. induction attempts as [|attempt rest IH]; intros p Hp; [done|].
  cbn [attempt_loop]. destruct (feeds attempt) as [usernames ending].
  set (p' := consume usernames _).
  assert (sound start p') as Hp'.
  { apply consume_sound. destruct Hp. by split. }
  destruct ending; try done.
  apply IH. destruct Hp' as [Hsub Hw]. split; [done|]. simpl.
  apply Forall_app. split; [done|]. constructor; [|done]. by eexists.
Qed.

Lemma snapshot_sorted start content :
  snapshot start content →
  StronglySorted str_le content ∧ NoDup content ∧ ∀ u, u ∈ start → u ∈ content.
Proof.
  intros (s & Hsub & ->). destruct (py_sorted_spec s) as (Hs & Hn & Hin).
  split; [done|]. split; [done|]. intros u Hu. by apply Hin, Hsub.
Qed.

(** C10. Whatever is already in the followers file and whatever the
    follower iterator yields at each attempt, in whatever order and however
    each attempt ends, every content [cmd_followers] writes to the file
    (at a checkpoint, in the handler of a rate-limit error, at the end) is
    in lexicographic order without a repeated username, and holds every
    username the file held at the start. *)
Theorem followers_file_sorted_unique
    (followers_file : option (list string)) (feeds : Z → feed) :
  Forall (λ content,
            StronglySorted str_le content
            ∧ NoDup content
            ∧ ∀ u, u ∈ default [] followers_file → u ∈ content)
    (cmd_followers followers_file feeds).1.
Proof.
  set (start := list_to_set (default [] followers_file) : gset string).
  assert (Forall (snapshot start) (cmd_followers followers_file feeds).1) as Hall.
  { unfold cmd_followers.
    pose proof (attempt_loop_sound start feeds (py_range1 max_retries)
                  {| collected := start; count := 0; writes := [] |}) as Hsound.
    fold start.
    destruct (attempt_loop _ _ _) as [p r]. simpl in Hsound.
    destruct Hsound as [Hsub Hw]; [by split|].
    destruct r; simpl; [|done..].
    apply Forall_app. split; [done|]. constructor; [|done]. by eexists. }
  eapply Forall_impl; [exact Hall|]. intros content Hc.
  destruct (snapshot_sorted _ _ Hc) as (Hs & Hn & Hin).
  split; [done|]. split; [done|]. intros u Hu. apply Hin.
  unfold start. by apply elem_of_list_to_set.
Qed.

(** A command that is not cut short by a foreign exception ends on a
    write. *)
Lemma final_write followers_file feeds :
  (cmd_followers followers_file feeds).2 = Ok tt →
  (cmd_followers followers_file feeds).1 ≠ [].
Proof.
  unfold cmd_followers. destruct (attempt_loop _ _ _) as [p r].
  destruct r; simpl; [|done..]. intros _. by destruct (writes p).
Qed.

End FollowersFile.
